(** * Session store of the catchUp front end (src/Provider/authProvider.tsx)

    A shallow embedding of [AuthProvider]: the React state cells of the
    component, the two browser stores it writes (the cookie jar of js-cookie
    and [localStorage]), the console, and the trace of calls made to the
    collaborators ([axiosInstance.get], [fileService.downloadFile], the redux
    [dispatch]).  Every function of the component is a computation in a small
    state monad over that world. *)

From Stdlib Require Import ZArith.
From Stdlib.Strings Require Import Byte.
From stdpp Require Import base option gmap strings list.

Open Scope string_scope.
Open Scope list_scope.

(** ** JavaScript values and truthiness *)

Module Js.

(** [!!s] for a string: only the empty string is falsy. *)
Definition truthy_string (s : string) : bool :=
  match s with
  | EmptyString => false
  | String _ _ => true
  end.

(** [!!v] for [string | null] (and [undefined]). *)
Definition truthy (v : option string) : bool :=
  match v with
  | Some s => truthy_string s
  | None => false
  end.

(** [!!n] for [number | null]: [null] and [0] are falsy. *)
Definition truthy_number (n : option Z) : bool :=
  match n with
  | Some z => negb (Z.eqb z 0)
  | None => false
  end.

(** [v || d] where [d] is a string. *)
Definition or_string (v : option string) (d : string) : string :=
  match v with
  | Some s => if truthy_string s then s else d
  | None => d
  end.

(** [v || null]. *)
Definition or_null (v : option string) : option string :=
  if truthy v then v else None.

(** What a [throw] or a rejected promise carries. *)
Inductive Reason : Type :=
| Error (message : string)      (* new Error(message) *)
| ProgressEvent (type : string) (* the event handed to reader.onerror *).

(** The settled state of a promise. *)
Inductive Promise (A : Type) : Type :=
| Resolved (value : A)
| Rejected (reason : Reason).

Arguments Resolved {A} value.
Arguments Rejected {A} reason.

End Js.

Import Js.

(** ** Data *)

(** Modelled from the spec: the declaration of [UserDto] (src/dtos/UserDto.ts)
    is missing; the spec gives it an identifier and an optional avatar
    reference id, and [fetchAndStoreAvatar] types the latter [number | null]. *)
Record UserDto : Type := mkUser {
  id : string;
  avatarId : option Z
}.

Definition Blob : Type := list byte.

(** Calls that leave the component. *)
Inductive Call : Type :=
| AxiosGet (url : string)          (* axiosInstance.get(url) *)
| DownloadFile (fileId : Z)        (* fileService.downloadFile(fileId) *)
| DispatchClearTasks               (* dispatch(clearTasks()) *).

(** The world the component runs in.  The first five fields are the
    [useState] cells of [AuthProvider]; [cookies] is the jar behind
    js-cookie; [inflight] holds the avatar downloads whose promise has not
    settled yet. *)
Record World : Type := mkWorld {
  accessToken : option string;
  refreshToken : option string;
  user : option UserDto;
  avatar : option string;
  roleCache : string;
  cookies : gmap string string;
  localStorage : gmap string string;
  console : list string;
  calls : list Call;
  inflight : list Z
}.

(** What the outside answers: the backend behind axios, the file service and
    the [FileReader] ([None] is a rejected download, respectively a read that
    ends in an [error] event). *)
Inductive AxiosResult : Type :=
| AxiosRejected
| AxiosResponse (data : option string).

Record Env : Type := mkEnv {
  axios_get : string -> AxiosResult;
  downloadFile : Z -> option Blob;
  readAsDataURL : Blob -> option string
}.

(** ** The state monad *)

Definition M (A : Type) : Type := World -> A * World.

Global Instance M_ret : MRet M := fun A (a : A) w => (a, w).
Global Instance M_bind : MBind M :=
  fun A B (f : A -> M B) (m : M A) w => let '(a, w') := m w in f a w'.

Definition exec {A : Type} (m : M A) (w : World) : World := snd (m w).
Definition eval {A : Type} (m : M A) (w : World) : A := fst (m w).

(** *** State cells: the setters returned by [useState] *)

Definition setAccessToken_ (v : option string) : M unit := fun w =>
  (tt, mkWorld v (refreshToken w) (user w) (avatar w) (roleCache w)
         (cookies w) (localStorage w) (console w) (calls w) (inflight w)).

Definition setRefreshToken_ (v : option string) : M unit := fun w =>
  (tt, mkWorld (accessToken w) v (user w) (avatar w) (roleCache w)
         (cookies w) (localStorage w) (console w) (calls w) (inflight w)).

Definition setUser_ (v : option UserDto) : M unit := fun w =>
  (tt, mkWorld (accessToken w) (refreshToken w) v (avatar w) (roleCache w)
         (cookies w) (localStorage w) (console w) (calls w) (inflight w)).

Definition setAvatar (v : option string) : M unit := fun w =>
  (tt, mkWorld (accessToken w) (refreshToken w) (user w) v (roleCache w)
         (cookies w) (localStorage w) (console w) (calls w) (inflight w)).

Definition setRoleCache (v : string) : M unit := fun w =>
  (tt, mkWorld (accessToken w) (refreshToken w) (user w) (avatar w) v
         (cookies w) (localStorage w) (console w) (calls w) (inflight w)).

(** *** Browser stores *)

Definition modify_cookies (f : gmap string string -> gmap string string) : M unit :=
  fun w =>
  (tt, mkWorld (accessToken w) (refreshToken w) (user w) (avatar w) (roleCache w)
         (f (cookies w)) (localStorage w) (console w) (calls w) (inflight w)).

Definition modify_localStorage (f : gmap string string -> gmap string string) : M unit :=
  fun w =>
  (tt, mkWorld (accessToken w) (refreshToken w) (user w) (avatar w) (roleCache w)
         (cookies w) (f (localStorage w)) (console w) (calls w) (inflight w)).

(** [Cookies.set(name, value, {path: '/', secure: true})] *)
Definition Cookies_set (name value : string) : M unit :=
  modify_cookies (insert name value).

(** [Cookies.remove(name)] (js-cookie removes on its default path ['/']) *)
Definition Cookies_remove (name : string) : M unit :=
  modify_cookies (delete name).

(** [Cookies.get(name)] *)
Definition Cookies_get (name : string) (w : World) : option string :=
  cookies w !! name.

Definition localStorage_setItem (key value : string) : M unit :=
  modify_localStorage (insert key value).

Definition localStorage_removeItem (key : string) : M unit :=
  modify_localStorage (delete key).

Definition localStorage_getItem (key : string) (w : World) : option string :=
  localStorage w !! key.

(** *** Console, collaborators, suspended tasks *)

Definition console_error (msg : string) : M unit := fun w =>
  (tt, mkWorld (accessToken w) (refreshToken w) (user w) (avatar w) (roleCache w)
         (cookies w) (localStorage w) (console w ++ [msg]) (calls w) (inflight w)).

Definition call (c : Call) : M unit := fun w =>
  (tt, mkWorld (accessToken w) (refreshToken w) (user w) (avatar w) (roleCache w)
         (cookies w) (localStorage w) (console w) (calls w ++ [c]) (inflight w)).

Definition set_inflight (l : list Z) : M unit := fun w =>
  (tt, mkWorld (accessToken w) (refreshToken w) (user w) (avatar w) (roleCache w)
         (cookies w) (localStorage w) (console w) (calls w) l).

(** The point where an [async] function stops at its first [await]: the
    download for [fileId] is pending and the rest of the function runs when
    it settles. *)
Definition suspend (fileId : Z) : M unit := fun w =>
  set_inflight (inflight w ++ [fileId]) w.

(** ** The component *)

(** The template literal [`User/GetRole/${userId}`]. *)
Definition role_url (userId : string) : string := "User/GetRole/" +:+ userId.

Section AuthProvider.

(** [JSON.stringify] on a [UserDto]; the serialised form is the runtime's. *)
Variable JSON_stringify : UserDto -> string.

(** [storeAvatar]: a [FileReader] reads the blob as a data URL.  The handler
    that writes [localStorage] and resolves is installed on [loadend], which
    the reader fires at the end of every read: after [load] with the data URL
    in [reader.result], and after [error] with [reader.result] null.  In the
    second case [onerror] has rejected the promise already, the later
    [resolve] has no effect, and [setItem] stores the null converted to the
    string ["null"]. *)
Definition storeAvatar (env : Env) (avatarBlob : Blob) : M (Promise string) :=
  match readAsDataURL env avatarBlob with
  | Some base64String =>
      localStorage_setItem "userAvatar" base64String ;;
      mret (Resolved base64String)
  | None =>
      localStorage_setItem "userAvatar" "null" ;;
      mret (Rejected (ProgressEvent "error"))
  end.

Definition loadStoredAvatar (w : World) : option string :=
  localStorage_getItem "userAvatar" w.

Definition setAccessToken (newToken : option string) : M unit :=
  setAccessToken_ newToken ;;
  if truthy newToken
  then Cookies_set "accessToken" (default "" newToken)
  else Cookies_remove "accessToken".

Definition setRefreshToken (newRefreshToken : option string) : M unit :=
  setRefreshToken_ newRefreshToken ;;
  if truthy newRefreshToken
  then Cookies_set "refreshToken" (default "" newRefreshToken)
  else Cookies_remove "refreshToken".

(** [fetchAndStoreAvatar] up to its first [await]: the download is requested
    and the function is suspended. *)
Definition fetchAndStoreAvatar (avatarId : option Z) : M unit :=
  if negb (truthy_number avatarId)
  then
    localStorage_removeItem "userAvatar" ;;
    setAvatar None
  else
    call (DownloadFile (default 0%Z avatarId)) ;;
    suspend (default 0%Z avatarId).

(** The rest of [fetchAndStoreAvatar], run when the download settles: the
    body of the [try] after the first [await], and the [catch]. *)
Definition fetchAndStoreAvatar_resume (env : Env) (avatarId : Z) : M unit :=
  match downloadFile env avatarId with
  | Some blob =>
      stored ← storeAvatar env blob;
      match stored with
      | Resolved avatarBase64 => setAvatar (Some avatarBase64)
      | Rejected _ => console_error "Error fetching avatar:"
      end
  | None => console_error "Error fetching avatar:"
  end.

(** One turn of the task queue: the oldest pending avatar download settles. *)
Definition settle (env : Env) : M unit := fun w =>
  match inflight w with
  | [] => (tt, w)
  | fileId :: rest => (set_inflight rest ;; fetchAndStoreAvatar_resume env fileId) w
  end.

Definition updateAvatar (env : Env) (avatarBlob : Blob) : M (Promise unit) :=
  stored ← storeAvatar env avatarBlob;
  match stored with
  | Resolved avatarBase64 => setAvatar (Some avatarBase64) ;; mret (Resolved tt)
  | Rejected r => mret (Rejected r)
  end.

Definition setUser (newUser : option UserDto) : M unit :=
  match newUser with
  | Some userToStore =>
      Cookies_set "user" (JSON_stringify userToStore) ;;
      setUser_ (Some userToStore) ;;
      if truthy_number (avatarId userToStore)
      then fetchAndStoreAvatar (avatarId userToStore)
      else mret tt
  | None =>
      Cookies_remove "user" ;;
      localStorage_removeItem "userAvatar" ;;
      setAvatar None ;;
      setUser_ None
  end.

Definition logout : M unit :=
  setAccessToken None ;;
  setRefreshToken None ;;
  setUser None ;;
  setRoleCache "" ;;
  localStorage_removeItem "userAvatar" ;;
  call DispatchClearTasks ;;
  setAvatar None.

(** [getRole].  The function closes over the [roleCache] of the render that
    created it, here [roleCache_seen]; the context value is rebuilt whenever
    [roleCache] changes (it is a dependency of the [useMemo]), so a caller
    that takes [getRole] from the current context passes [roleCache w].
    [userId] is a [string] for the type checker; [None] stands for the
    null or undefined an unchecked caller can pass. *)
Definition getRole (env : Env) (roleCache_seen : string) (userId : option string)
  : M (Promise string) :=
  if negb (truthy userId) then mret (Rejected (Error "Invalid userId"))
  else if truthy_string roleCache_seen then mret (Resolved roleCache_seen)
  else
    let url := role_url (default "" userId) in
    call (AxiosGet url) ;;
    match axios_get env url with
    | AxiosResponse data =>
        let role := or_string data "User" in
        setRoleCache role ;;
        mret (Resolved role)
    | AxiosRejected => mret (Rejected (Error "Failed to fetch user role"))
    end.

(** The initial values of the state cells, as the [useState] initialisers read
    them from the stores. *)
Definition stored_accessToken (w : World) : option string :=
  or_null (Cookies_get "accessToken" w).

Definition stored_refreshToken (w : World) : option string :=
  or_null (Cookies_get "refreshToken" w).

End AuthProvider.

(** The conditions the specification names. *)
Definition InvalidArgument : Reason := Error "Invalid userId".
Definition RoleFetchFailed : Reason := Error "Failed to fetch user role".

(** ** Mounting and driving the provider *)

(** The first render of [AuthProvider]: every cell takes its [useState]
    initial value from the stores.  [JSON_parse] is [JSON.parse] on the
    [user] cookie, [None] when it throws, which makes the render throw.  The
    role cache always starts empty, and promises pending in the previous
    page are gone. *)
Definition mount (JSON_parse : string -> option UserDto) (w : World) : option World :=
  let storedUser := Cookies_get "user" w in
  user0 ← (if truthy storedUser
           then Some <$> JSON_parse (default "" storedUser)
           else Some None);
  Some (mkWorld (stored_accessToken w) (stored_refreshToken w) user0
          (loadStoredAvatar w) "" (cookies w) (localStorage w)
          (console w) (calls w) []).

(** What can happen to a mounted provider: a consumer calls one of the six
    functions of the context value (taken from the current render, so
    [getRole] sees the current [roleCache]), or a pending avatar download
    settles.  The operations that wait for the outside carry its answer. *)
Inductive Op : Type :=
| OpSetAccessToken (newToken : option string)
| OpSetRefreshToken (newRefreshToken : option string)
| OpSetUser (newUser : option UserDto)
| OpUpdateAvatar (env : Env) (avatarBlob : Blob)
| OpLogout
| OpGetRole (env : Env) (userId : option string)
| OpSettle (env : Env).

Definition step (stringify : UserDto -> string) (w : World) (op : Op) : World :=
  match op with
  | OpSetAccessToken v => exec (setAccessToken v) w
  | OpSetRefreshToken v => exec (setRefreshToken v) w
  | OpSetUser u => exec (setUser stringify u) w
  | OpUpdateAvatar env blob => exec (updateAvatar env blob) w
  | OpLogout => exec (logout stringify) w
  | OpGetRole env userId => exec (getRole env (roleCache w) userId) w
  | OpSettle env => exec (settle env) w
  end.

Definition run (stringify : UserDto -> string) (ops : list Op) (w : World) : World :=
  foldl (step stringify) w ops.

(** The cells agree with the stores: what a reload would read is what the
    session holds (a falsy token counts as none). *)
Definition in_sync (stringify : UserDto -> string) (w : World) : Prop :=
  stored_accessToken w = or_null (accessToken w) /\
  stored_refreshToken w = or_null (refreshToken w) /\
  Cookies_get "user" w = stringify <$> user w.

(** The reader answers with a data URL whenever this operation asks it. *)
Definition reader_ok (op : Op) : Prop :=
  match op with
  | OpUpdateAvatar env blob => readAsDataURL env blob <> None
  | OpSettle env => forall blob, readAsDataURL env blob <> None
  | _ => True
  end.

Definition is_logout (op : Op) : bool :=
  match op with
  | OpLogout => true
  | _ => false
  end.

Definition is_role_request (c : Call) : bool :=
  match c with
  | AxiosGet _ => true
  | _ => false
  end.

(** A call of [getRole] through the function of an earlier render, which
    still sees the role cache of that render, beside the operations of the
    current one. *)
Inductive Act : Type :=
| ActCurrent (op : Op)
| ActKeptGetRole (env : Env) (roleCache_seen : string) (userId : option string).

Definition act (stringify : UserDto -> string) (w : World) (a : Act) : World :=
  match a with
  | ActCurrent op => step stringify w op
  | ActKeptGetRole env seen userId => exec (getRole env seen userId) w
  end.

Definition run_acts (stringify : UserDto -> string) (acts : list Act) (w : World)
  : World :=
  foldl (act stringify) w acts.

(** The acts that can not reach the role: anything but [logout], and a kept
    [getRole] only if the cache it saw held a role. *)
Definition spares_role (a : Act) : bool :=
  match a with
  | ActCurrent op => negb (is_logout op)
  | ActKeptGetRole _ seen _ => truthy_string seen
  end.

(** [getRole] in its two halves: up to the [await] of the request, and from
    the answer on.  Other operations can run in between. *)
Inductive GetRoleStart : Type :=
| Settled (result : Promise string)
| Awaiting (url : string).

Definition getRole_start (roleCache_seen : string) (userId : option string)
  : M GetRoleStart :=
  if negb (truthy userId) then mret (Settled (Rejected (Error "Invalid userId")))
  else if truthy_string roleCache_seen then mret (Settled (Resolved roleCache_seen))
  else
    let url := role_url (default "" userId) in
    call (AxiosGet url) ;;
    mret (Awaiting url).

Definition getRole_resume (answer : AxiosResult) : M (Promise string) :=
  match answer with
  | AxiosResponse data =>
      let role := or_string data "User" in
      setRoleCache role ;;
      mret (Resolved role)
  | AxiosRejected => mret (Rejected (Error "Failed to fetch user role"))
  end.

(** ** The user service (src/services/userService.ts) *)

Module UserService.

(** The error axios rejects with, as far as [handleError] looks into it:
    [error.response], [error.response.data] and
    [error.response.data.message], each possibly missing. *)
Record ErrorBody : Type := mkBody { message : option string }.
Record ErrorResponse : Type := mkResponse { data : option ErrorBody }.
Record AxiosError : Type := mkAxiosError { response : option ErrorResponse }.

(** [Partial<UserDto>]: every field may be left out. *)
Record PartialUserDto : Type := mkPartial {
  partial_id : option string;
  partial_avatarId : option (option Z)
}.

Inductive Request : Type :=
| Post (url : string) (body : UserDto)
| Patch (url : string) (body : PartialUserDto).

(** The backend's answer to a request. *)
Inductive Answer : Type :=
| Ok (data : UserDto)
| Failed (error : AxiosError).

(** What a [throw] carries here: a new [Error], or the caught axios error
    itself (the [throw error] that ends each [catch]). *)
Inductive Thrown : Type :=
| NewError (message : string)
| Caught (error : AxiosError).

Inductive Outcome (A : Type) : Type :=
| Returned (value : A)
| Threw (thrown : Thrown).

Arguments Returned {A} value.
Arguments Threw {A} thrown.

(** The service sees the console and the network. *)
Record Io : Type := mkIo {
  console : list string;
  requests : list Request
}.

Definition S (A : Type) : Type := Io -> A * Io.

#[export] Instance S_ret : MRet S := fun A (a : A) io => (a, io).
#[export] Instance S_bind : MBind S :=
  fun A B (f : A -> S B) (m : S A) io => let '(a, io') := m io in f a io'.

Definition console_error (msg : string) : S unit := fun io =>
  (tt, mkIo (console io ++ [msg]) (requests io)).

Definition send (r : Request) : S unit := fun io =>
  (tt, mkIo (console io) (requests io ++ [r])).

(** [handleError]: logs, then throws on either path. *)
Definition handleError (operation : string) (error : AxiosError) : S (Outcome unit) :=
  console_error (operation +:+ " failed:") ;;
  match response error with
  | None => mret (Threw (NewError "API is not available"))
  | Some r =>
      mret (Threw (NewError
        (or_string (data r ≫= message) "An unexpected error occurred")))
  end.

Definition addUser (http : Request -> Answer) (user : UserDto) : S (Outcome UserDto) :=
  send (Post "/User/Add" user) ;;
  match http (Post "/User/Add" user) with
  | Ok data => mret (Returned data)
  | Failed error =>
      handled ← handleError "addUser" error;
      match handled with
      | Threw t => mret (Threw t)
      | Returned _ => mret (Threw (Caught error))
      end
  end.

Definition editUser (http : Request -> Answer) (userId : string)
    (updateData : PartialUserDto) : S (Outcome UserDto) :=
  send (Patch ("/User/Edit/" +:+ userId) updateData) ;;
  match http (Patch ("/User/Edit/" +:+ userId) updateData) with
  | Ok data => mret (Returned data)
  | Failed error =>
      handled ← handleError "editUser" error;
      match handled with
      | Threw t => mret (Threw t)
      | Returned _ => mret (Threw (Caught error))
      end
  end.

End UserService.

(** ** The material list (src/components/Material/DndMaterial/MaterialsContainer.tsx) *)

Module Materials.

(** The declaration of [MaterialDto] is not in the sources at hand; these
    are the two fields [MaterialsContainer] reads. *)
Record MaterialDto : Type := mkMaterial {
  id : Z;
  name : string
}.

(** The [useState] cells of [MaterialsContainer], and the calls made to the
    [onMaterialSelect] callback of the parent. *)
Record State : Type := mkState {
  materialList : list MaterialDto;
  searchedList : list MaterialDto;
  searchTerm : string;
  showMaterial : bool;
  loading : bool;
  showAlert : bool;
  alertMessage : string;
  selections : list (Z * list Z * string)
}.

(** The cells as the first render has them. *)
Definition initial : State := mkState [] [] "" false true false "" [].

Definition setMaterialList (l : list MaterialDto) (s : State) : State :=
  mkState l (searchedList s) (searchTerm s) (showMaterial s) (loading s)
          (showAlert s) (alertMessage s) (selections s).

Definition setSearchedList (l : list MaterialDto) (s : State) : State :=
  mkState (materialList s) l (searchTerm s) (showMaterial s) (loading s)
          (showAlert s) (alertMessage s) (selections s).

Definition setSearchTerm (t : string) (s : State) : State :=
  mkState (materialList s) (searchedList s) t (showMaterial s) (loading s)
          (showAlert s) (alertMessage s) (selections s).

Definition setShowMaterial (b : bool) (s : State) : State :=
  mkState (materialList s) (searchedList s) (searchTerm s) b (loading s)
          (showAlert s) (alertMessage s) (selections s).

Definition setLoading (b : bool) (s : State) : State :=
  mkState (materialList s) (searchedList s) (searchTerm s) (showMaterial s) b
          (showAlert s) (alertMessage s) (selections s).

Definition setShowAlert (b : bool) (s : State) : State :=
  mkState (materialList s) (searchedList s) (searchTerm s) (showMaterial s)
          (loading s) b (alertMessage s) (selections s).

Definition setAlertMessage (m : string) (s : State) : State :=
  mkState (materialList s) (searchedList s) (searchTerm s) (showMaterial s)
          (loading s) (showAlert s) m (selections s).

Definition onMaterialSelect (materialId : Z) (fileIds : list Z) (action : string)
    (s : State) : State :=
  mkState (materialList s) (searchedList s) (searchTerm s) (showMaterial s)
          (loading s) (showAlert s) (alertMessage s)
          (selections s ++ [(materialId, fileIds, action)]).

(** [s.includes(sub)]: [sub] occurs somewhere in [s]. *)
Fixpoint includes (s sub : string) : bool :=
  String.prefix sub s ||
  match s with
  | EmptyString => false
  | String _ rest => includes rest sub
  end.

(** What [materialService] answers ([errorText] is the rejection as the
    string concatenation renders it). *)
Inductive Answer (A : Type) : Type :=
| Fulfilled (value : A)
| Failed (errorText : string).

Arguments Fulfilled {A} value.
Arguments Failed {A} errorText.

Section Component.

(** [String.prototype.toLowerCase]. *)
Variable toLowerCase : string -> string.

(** The predicate of the search filter. *)
Definition matches (term : string) (material : MaterialDto) : bool :=
  includes (toLowerCase (name material)) (toLowerCase term).

(** The effect on [[searchTerm, materialList]]. *)
Definition filteredMaterials (s : State) : State :=
  setSearchedList (List.filter (matches (searchTerm s)) (materialList s)) s.

(** [searchedList.find(m => m.id == material.id)], and whether the row gets
    [display: block]. *)
Definition isVisible (s : State) (material : MaterialDto) : option MaterialDto :=
  List.find (fun m => Z.eqb (id m) (id material)) (searchedList s).

Definition displayed (s : State) (material : MaterialDto) : bool :=
  match isVisible s material with
  | Some _ => true
  | None => false
  end.

(** [fetchMaterials], with what [getAllMaterials] answered. *)
Definition fetchMaterials (answer : Answer (list MaterialDto)) (s : State) : State :=
  setLoading false
    match answer with
    | Fulfilled l => setMaterialList l s
    | Failed error =>
        setShowAlert true (setAlertMessage ("Error fetching materials: " +:+ error) s)
    end.

Definition materialCreated (answer : Answer (list MaterialDto)) (materialId : Z)
    (s : State) : Z * State :=
  (materialId, fetchMaterials answer (setShowMaterial false s)).

(** [onDeleteItem], with what [deleteMaterial] answered; the list it filters
    is the one of the render that created the handler. *)
Definition onDeleteItem (answer : Answer unit) (materialList_seen : list MaterialDto)
    (materialID : Z) (s : State) : State :=
  match answer with
  | Fulfilled _ =>
      onMaterialSelect materialID [] "deleteMaterial"
        (setMaterialList
           (List.filter (fun material => negb (Z.eqb (id material) materialID))
                        materialList_seen) s)
  | Failed error =>
      setShowAlert true
        (setAlertMessage ("Problem with deleting material: " +:+ error) s)
  end.

(** What the user and the backend can make the component do. *)
Inductive Op : Type :=
| OpFetch (answer : Answer (list MaterialDto))
| OpSearch (term : string)
| OpShowCreate
| OpHideCreate
| OpCreated (answer : Answer (list MaterialDto)) (materialId : Z)
| OpDelete (answer : Answer unit) (materialID : Z).

(** The handler of each event, taken from the current render (so a delete
    filters the current list) and run until it has settled. *)
Definition handle (s : State) (op : Op) : State :=
  match op with
  | OpFetch answer => fetchMaterials answer s
  | OpSearch term => setSearchTerm term s
  | OpShowCreate => setShowMaterial true s
  | OpHideCreate => setShowMaterial false s
  | OpCreated answer materialId => snd (materialCreated answer materialId s)
  | OpDelete answer materialID => onDeleteItem answer (materialList s) materialID s
  end.

(** Whether the handler gave [searchTerm] or [materialList] a new value: a
    list that is set is a new array, a search term is compared as a string. *)
Definition deps_changed (s : State) (op : Op) : bool :=
  match op with
  | OpFetch (Fulfilled _) => true
  | OpSearch term => negb (String.eqb term (searchTerm s))
  | OpCreated (Fulfilled _) _ => true
  | OpDelete (Fulfilled _) _ => true
  | _ => false
  end.

(** One event: the handler, then the filter effect if its dependencies
    changed. *)
Definition step (s : State) (op : Op) : State :=
  if deps_changed s op then filteredMaterials (handle s op) else handle s op.

Definition run (ops : list Op) (s : State) : State := foldl step s ops.

Definition failed (op : Op) : bool :=
  match op with
  | OpFetch (Failed _) | OpCreated (Failed _) _ | OpDelete (Failed _) _ => true
  | _ => false
  end.

Definition fetches (op : Op) : bool :=
  match op with
  | OpFetch _ | OpCreated _ _ => true
  | _ => false
  end.

End Component.

(** A lower-casing for the examples: the letters A to Z, anything else as
    it is. *)
Definition ascii_lower (c : Ascii.ascii) : Ascii.ascii :=
  let n := Ascii.nat_of_ascii c in
  if (65 <=? n)%nat && (n <=? 90)%nat then Ascii.ascii_of_nat (n + 32) else c.

Fixpoint lower (s : string) : string :=
  match s with
  | EmptyString => EmptyString
  | String c rest => String (ascii_lower c) (lower rest)
  end.

End Materials.

(** ** Concrete worlds and environments used by the examples *)

(** A fresh tab: nothing in memory, nothing stored. *)
Definition fresh : World := mkWorld None None None None "" ∅ ∅ [] [] [].

(** A signed-in session whose role has been resolved. *)
Definition signed_in : World :=
  mkWorld (Some "at") (Some "rt") (Some (mkUser "u1" (Some 42%Z)))
          (Some "data:image/png;base64,AA==") "Admin"
          {[ "accessToken" := "at"; "refreshToken" := "rt"; "user" := "u1" ]}
          {[ "userAvatar" := "data:image/png;base64,AA==" ]} [] [] [].

Definition stringify_id (u : UserDto) : string := id u.

(** The backend answers every role lookup with ["Admin"], downloads succeed
    and the reader encodes. *)
Definition env_ok : Env :=
  mkEnv (fun _ => AxiosResponse (Some "Admin"))
        (fun _ => Some [x89; x50; x4e; x47])
        (fun _ => Some "data:image/png;base64,iVBORw==").

(** The backend is down. *)
Definition env_down : Env :=
  mkEnv (fun _ => AxiosRejected) (fun _ => None) (fun _ => None).

(** The backend answers the role lookup with an empty body. *)
Definition env_no_role : Env :=
  mkEnv (fun _ => AxiosResponse (Some ""))
        (fun _ => Some [x89; x50; x4e; x47])
        (fun _ => Some "data:image/png;base64,iVBORw==").

(** The download succeeds and the reader ends in an [error] event. *)
Definition env_unreadable : Env :=
  mkEnv (fun _ => AxiosRejected) (fun _ => Some []) (fun _ => None).

(** ** Proof support *)

Ltac run :=
  unfold exec, eval, Cookies_get, localStorage_getItem, loadStoredAvatar,
    stored_accessToken, stored_refreshToken;
  unfold logout, setUser, setAccessToken, setRefreshToken, fetchAndStoreAvatar,
    fetchAndStoreAvatar_resume, settle, updateAvatar, storeAvatar, getRole,
    suspend;
  cbn.

Lemma truthy_string_true (s : string) : truthy_string s = true <-> s <> "".
Proof. destruct s; cbn; split; intros; congruence. Qed.

Lemma truthy_Some (s : string) : s <> "" -> truthy (Some s) = true.
Proof. intros H. now apply truthy_string_true. Qed.

Lemma truthy_false (v : option string) :
  truthy v = false <-> v = None \/ v = Some "".
Proof.
  destruct v as [[|c s]|]; cbn; split; intros H; auto; try congruence.
  all: destruct H; congruence.
Qed.

Lemma truthy_number_true (n : option Z) :
  truthy_number n = true <-> exists z, n = Some z /\ z <> 0%Z.
Proof.
  destruct n as [z|]; cbn.
  - rewrite negb_true_iff, Z.eqb_neq. split.
    + intros H. exists z. auto.
    + intros (z' & [= ->] & H). exact H.
  - split; [congruence | intros (z & H & _); congruence].
Qed.

Lemma or_string_truthy (v : option string) (d : string) :
  d <> "" -> truthy_string (or_string v d) = true.
Proof.
  intros Hd. destruct v as [[|c s]|]; cbn; try reflexivity.
  all: now apply truthy_string_true.
Qed.

Lemma or_string_falsy (v : option string) (d : string) :
  truthy v = false -> or_string v d = d.
Proof. destruct v as [[|c s]|]; cbn; intros; congruence. Qed.

Lemma cookies_setAccessToken (v : option string) (w : World) :
  cookies (exec (setAccessToken v) w) =
  if truthy v then <["accessToken" := default "" v]> (cookies w)
  else delete "accessToken" (cookies w).
Proof. run. destruct (truthy v); reflexivity. Qed.

Lemma cookies_setRefreshToken (v : option string) (w : World) :
  cookies (exec (setRefreshToken v) w) =
  if truthy v then <["refreshToken" := default "" v]> (cookies w)
  else delete "refreshToken" (cookies w).
Proof. run. destruct (truthy v); reflexivity. Qed.

(** ** The session store *)

(** C1.  Whatever the session was, after [logout] the access token, the
    refresh token, the user and the avatar are absent and the cached role is
    the empty string, in the state cells and in what the cookie jar and
    [localStorage] hold under the four keys. *)
Theorem logout_clears_session (stringify : UserDto -> string) (w : World) :
  let w' := exec (logout stringify) w in
  (accessToken w' = None /\ refreshToken w' = None /\ user w' = None /\
   avatar w' = None /\ roleCache w' = "") /\
  (Cookies_get "accessToken" w' = None /\ Cookies_get "refreshToken" w' = None /\
   Cookies_get "user" w' = None /\ localStorage_getItem "userAvatar" w' = None).
Proof.
  run. repeat split; by simplify_map_eq.
Qed.

(** C2, as the code has it.  [setUser(null)] removes the [user] cookie and
    the stored avatar and resets the [user] and [avatar] cells; it does not
    touch the cached role, nor the tokens. *)
Theorem setUser_absent_clears_user_and_avatar
    (stringify : UserDto -> string) (w : World) :
  let w' := exec (setUser stringify None) w in
  Cookies_get "user" w' = None /\
  localStorage_getItem "userAvatar" w' = None /\
  user w' = None /\ avatar w' = None /\
  roleCache w' = roleCache w /\
  accessToken w' = accessToken w /\ refreshToken w' = refreshToken w.
Proof.
  run. repeat split; by simplify_map_eq.
Qed.

(** C2 fails as stated: in a session whose role is resolved, clearing the
    user leaves the cached role in place. *)
Lemma setUser_absent_keeps_role :
  let w' := exec (setUser stringify_id None) signed_in in
  ~ (Cookies_get "user" w' = None /\
     localStorage_getItem "userAvatar" w' = None /\
     user w' = None /\ avatar w' = None /\
     roleCache w' = "").
Proof.
  cbn. intros (_ & _ & _ & _ & H). discriminate H.
Qed.

(** C7, as the code has it.  A non-empty token written by [setAccessToken]
    is what a later read of the [accessToken] cookie returns, and after
    [setAccessToken(null)] the read returns nothing; the same for
    [setRefreshToken] and the [refreshToken] cookie; neither setter changes
    the other's cookie. *)
Theorem token_cookie_roundtrip (T : string) (w : World) :
  T <> "" ->
  (Cookies_get "accessToken" (exec (setAccessToken (Some T)) w) = Some T /\
   stored_accessToken (exec (setAccessToken (Some T)) w) = Some T /\
   Cookies_get "accessToken" (exec (setAccessToken None) w) = None) /\
  (Cookies_get "refreshToken" (exec (setRefreshToken (Some T)) w) = Some T /\
   stored_refreshToken (exec (setRefreshToken (Some T)) w) = Some T /\
   Cookies_get "refreshToken" (exec (setRefreshToken None) w) = None) /\
  (forall v, Cookies_get "refreshToken" (exec (setAccessToken v) w)
             = Cookies_get "refreshToken" w) /\
  (forall v, Cookies_get "accessToken" (exec (setRefreshToken v) w)
             = Cookies_get "accessToken" w).
Proof.
  intros HT. apply truthy_Some in HT.
  unfold stored_accessToken, stored_refreshToken, Cookies_get.
  rewrite !cookies_setAccessToken, !cookies_setRefreshToken, HT. cbn.
  rewrite !lookup_insert_eq, !lookup_delete_eq. unfold or_null. rewrite HT.
  repeat split; try done.
  all: intros v; rewrite ?cookies_setAccessToken, ?cookies_setRefreshToken.
  all: destruct (truthy v); by simplify_map_eq.
Qed.

Lemma token_cookie_roundtrip_witness :
  "at" <> "" /\
  Cookies_get "accessToken" (exec (setAccessToken (Some "at")) fresh) = Some "at".
Proof.
  split; [discriminate |].
  apply (token_cookie_roundtrip "at" fresh). discriminate.
Defined.

(** C7 fails as stated: the empty string is a token value, and
    [setAccessToken("")] takes the branch that removes the cookie, so the
    read returns nothing instead of the empty string. *)
Lemma setAccessToken_empty_string_removes :
  Cookies_get "accessToken" (exec (setAccessToken (Some "")) signed_in) = None /\
  Cookies_get "accessToken" (exec (setAccessToken (Some "")) signed_in) <> Some "".
Proof.
  split; [reflexivity | discriminate].
Qed.

(** The empty string is treated like an absent token by both setters. *)
Lemma setToken_falsy_removes (v : option string) (w : World) :
  truthy v = false ->
  Cookies_get "accessToken" (exec (setAccessToken v) w) = None /\
  Cookies_get "refreshToken" (exec (setRefreshToken v) w) = None.
Proof.
  intros Hv. run. rewrite Hv. cbn. split; by simplify_map_eq.
Qed.

(** ** The avatar cache *)

(** C9, as the code has it.  For a user whose avatar id is present and not
    zero, [setUser] requests exactly one download, the one of that id, and
    leaves it pending; it performs no other call. *)
Theorem setUser_fetches_avatar_once
    (stringify : UserDto -> string) (U : UserDto) (a : Z) (w : World) :
  avatarId U = Some a -> a <> 0%Z ->
  let w' := exec (setUser stringify (Some U)) w in
  calls w' = calls w ++ [DownloadFile a] /\
  inflight w' = inflight w ++ [a] /\
  user w' = Some U /\
  Cookies_get "user" w' = Some (stringify U).
Proof.
  intros Ha Hnz. run. rewrite Ha. cbn.
  apply Z.eqb_neq in Hnz. rewrite Hnz. cbn.
  repeat split. by simplify_map_eq.
Qed.

Lemma setUser_fetches_avatar_once_witness :
  let U := mkUser "u1" (Some 42%Z) in
  let w' := exec (setUser stringify_id (Some U)) fresh in
  (avatarId U = Some 42%Z /\ 42%Z <> 0%Z) /\
  calls w' = calls fresh ++ [DownloadFile 42%Z] /\
  inflight w' = inflight fresh ++ [42%Z] /\
  user w' = Some U /\
  Cookies_get "user" w' = Some (stringify_id U).
Proof.
  split; [split; [reflexivity | discriminate] |].
  apply (setUser_fetches_avatar_once stringify_id (mkUser "u1" (Some 42%Z)) 42%Z fresh);
    [reflexivity | discriminate].
Defined.

(** C9 fails as stated: an avatar id of 0 is present in the record and falsy
    in the guard of [setUser], so no download is requested. *)
Lemma setUser_avatar_zero_no_fetch :
  let U := mkUser "u1" (Some 0%Z) in
  let w' := exec (setUser stringify_id (Some U)) fresh in
  avatarId U = Some 0%Z /\ calls w' = [] /\ inflight w' = [] /\
  calls w' <> calls fresh ++ [DownloadFile 0%Z].
Proof.
  cbn. repeat split. discriminate.
Qed.

(** A user without a usable avatar id: [setUser] requests nothing and leaves
    the avatar, in memory and stored, as it was. *)
Lemma setUser_no_avatar_id
    (stringify : UserDto -> string) (U : UserDto) (w : World) :
  truthy_number (avatarId U) = false ->
  let w' := exec (setUser stringify (Some U)) w in
  calls w' = calls w /\ inflight w' = inflight w /\
  avatar w' = avatar w /\ localStorage w' = localStorage w.
Proof.
  intros H. run. rewrite H. cbn. repeat split.
Qed.

(** When the download itself is rejected, the pending fetch logs the failure
    and changes nothing else: the [avatar] cell and [localStorage] are as
    they were. *)
Lemma avatar_download_rejected (env : Env) (a : Z) (w : World) :
  downloadFile env a = None ->
  let w' := exec (fetchAndStoreAvatar_resume env a) w in
  console w' = console w ++ ["Error fetching avatar:"] /\
  avatar w' = avatar w /\ localStorage w' = localStorage w /\
  cookies w' = cookies w /\ user w' = user w /\ calls w' = calls w.
Proof.
  intros H. run. rewrite H. cbn. repeat split.
Qed.

(** When the download succeeds and the reader fails, the pending fetch logs
    the failure and leaves the [avatar] cell alone, but the [loadend] handler
    of [storeAvatar] has run: [localStorage] holds the string ["null"] under
    [userAvatar]. *)
Lemma avatar_read_failed (env : Env) (a : Z) (blob : Blob) (w : World) :
  downloadFile env a = Some blob -> readAsDataURL env blob = None ->
  let w' := exec (fetchAndStoreAvatar_resume env a) w in
  console w' = console w ++ ["Error fetching avatar:"] /\
  avatar w' = avatar w /\
  localStorage_getItem "userAvatar" w' = Some "null".
Proof.
  intros Hd Hr. run. rewrite Hd. cbn. rewrite Hr. cbn.
  repeat split. by simplify_map_eq.
Qed.

(** When both succeed the data URL is stored and becomes the avatar. *)
Lemma avatar_fetched (env : Env) (a : Z) (blob : Blob) (url : string) (w : World) :
  downloadFile env a = Some blob -> readAsDataURL env blob = Some url ->
  let w' := exec (fetchAndStoreAvatar_resume env a) w in
  avatar w' = Some url /\ localStorage_getItem "userAvatar" w' = Some url /\
  console w' = console w.
Proof.
  intros Hd Hr. run. rewrite Hd. cbn. rewrite Hr. cbn.
  repeat split. by simplify_map_eq.
Qed.

(** C8, at the failing input.  A fresh session, a user with avatar id 42,
    the download succeeds and the reader ends in an error: after [setUser]
    returns and the pending fetch settles, the failure is logged and the
    [avatar] cell is still empty, but the durable [userAvatar] key is set, to
    ["null"], and that is the avatar the next page load starts with. *)
Theorem avatar_read_failure_stores_null :
  let w1 := exec (setUser stringify_id (Some (mkUser "u1" (Some 42%Z)))) fresh in
  let w2 := exec (settle env_unreadable) w1 in
  inflight w1 = [42%Z] /\
  console w2 = ["Error fetching avatar:"] /\
  avatar w2 = None /\
  localStorage_getItem "userAvatar" w2 = Some "null" /\
  loadStoredAvatar w2 <> None.
Proof.
  cbn. repeat split. discriminate.
Qed.

(** ** The role resolver *)

(** The three ways through [getRole] for a usable [userId]. *)
Lemma getRole_cached (env : Env) (seen u : string) (w : World) :
  u <> "" -> seen <> "" ->
  getRole env seen (Some u) w = (Resolved seen, w).
Proof.
  intros Hu Hs. apply truthy_string_true in Hu, Hs.
  unfold getRole. cbn. by rewrite Hu, Hs.
Qed.

Lemma getRole_fetched (env : Env) (u : string) (data : option string) (w : World) :
  u <> "" -> axios_get env (role_url u) = AxiosResponse data ->
  getRole env "" (Some u) w =
  (Resolved (or_string data "User"),
   exec (call (AxiosGet (role_url u)) ;; setRoleCache (or_string data "User")) w).
Proof.
  intros Hu Hnet. apply truthy_string_true in Hu.
  unfold getRole, role_url in *. cbn. by rewrite Hu, Hnet.
Qed.

Lemma getRole_rejected (env : Env) (u : string) (w : World) :
  u <> "" -> axios_get env (role_url u) = AxiosRejected ->
  getRole env "" (Some u) w =
  (Rejected RoleFetchFailed, exec (call (AxiosGet (role_url u))) w).
Proof.
  intros Hu Hnet. apply truthy_string_true in Hu.
  unfold getRole, role_url in *. cbn. by rewrite Hu, Hnet.
Qed.


(** C3, as the code has it.  Starting from an empty role cache, with [u] non-empty and the first
    lookup answered: the first [getRole(u)] resolves to a role, the second
    one, taken from the context rendered after the first, resolves to the
    same role whatever the backend would answer then and changes nothing,
    so the two calls together add exactly one request to the trace. *)
Theorem getRole_twice_one_fetch
    (env1 env2 : Env) (u : string) (data : option string) (w : World) :
  u <> "" -> roleCache w = "" ->
  axios_get env1 (role_url u) = AxiosResponse data ->
  exists (role : string) (w1 : World),
    getRole env1 (roleCache w) (Some u) w = (Resolved role, w1) /\
    getRole env2 (roleCache w1) (Some u) w1 = (Resolved role, w1) /\
    calls w1 = calls w ++ [AxiosGet (role_url u)].
Proof.
  intros Hu Hc Hnet. rewrite Hc.
  rewrite (getRole_fetched env1 u data w Hu Hnet).
  eexists _, _. split; [reflexivity |]. split.
  - apply getRole_cached; [exact Hu |]. cbn.
    apply truthy_string_true, or_string_truthy. discriminate.
  - reflexivity.
Qed.

Lemma getRole_twice_one_fetch_witness :
  ("u1" <> "" /\ roleCache fresh = "" /\
   axios_get env_ok (role_url "u1") = AxiosResponse (Some "Admin")) /\
  exists (role : string) (w1 : World),
    getRole env_ok (roleCache fresh) (Some "u1") fresh = (Resolved role, w1) /\
    getRole env_down (roleCache w1) (Some "u1") w1 = (Resolved role, w1) /\
    calls w1 = calls fresh ++ [AxiosGet (role_url "u1")].
Proof.
  split; [repeat split; discriminate |].
  apply (getRole_twice_one_fetch env_ok env_down "u1" (Some "Admin") fresh);
    [discriminate | reflexivity | reflexivity].
Defined.

(** C3 fails as stated: when both calls go through the same [getRole], the
    one of the render with the empty cache, the second call sees the empty
    cache again; it sends a second request and returns what the backend
    answers then. *)
Lemma getRole_same_closure_fetches_twice :
  let first := getRole env_ok (roleCache fresh) (Some "u1") fresh in
  let second := getRole env_no_role (roleCache fresh) (Some "u1") (snd first) in
  fst first = Resolved "Admin" /\ fst second = Resolved "User" /\
  calls (snd second) = [AxiosGet (role_url "u1"); AxiosGet (role_url "u1")] /\
  ~ (exists role : string,
       fst first = Resolved role /\ fst second = Resolved role /\
       calls (snd second) = calls fresh ++ [AxiosGet (role_url "u1")]).
Proof.
  cbn. repeat split. intros (role & _ & _ & H). discriminate H.
Qed.

(** C4.  With an empty or absent [userId], [getRole] is rejected with
    "Invalid userId" and the world is untouched: no call leaves the
    component and no state cell or store changes.  This holds for the
    [getRole] of any render. *)
Theorem getRole_invalid_userId
    (env : Env) (seen : string) (userId : option string) (w : World) :
  truthy userId = false ->
  getRole env seen userId w = (Rejected InvalidArgument, w).
Proof.
  intros H. unfold getRole. by rewrite H.
Qed.

Lemma getRole_invalid_userId_witness :
  (truthy (Some "") = false /\ truthy None = false) /\
  getRole env_ok (roleCache signed_in) (Some "") signed_in
    = (Rejected InvalidArgument, signed_in) /\
  getRole env_ok (roleCache fresh) None fresh = (Rejected InvalidArgument, fresh).
Proof.
  split; [split; reflexivity |]. split.
  - apply (getRole_invalid_userId env_ok (roleCache signed_in) (Some "") signed_in).
    reflexivity.
  - apply (getRole_invalid_userId env_ok (roleCache fresh) None fresh).
    reflexivity.
Defined.

(** C5.  With [u] non-empty and nothing cached, if the request is rejected
    then [getRole(u)] is rejected with "Failed to fetch user role"; the
    request is the only trace it leaves, and the cached role is still the
    empty string. *)
Theorem getRole_fetch_error_caches_nothing (env : Env) (u : string) (w : World) :
  u <> "" -> roleCache w = "" ->
  axios_get env (role_url u) = AxiosRejected ->
  exists w' : World,
    getRole env (roleCache w) (Some u) w = (Rejected RoleFetchFailed, w') /\
    roleCache w' = "" /\
    calls w' = calls w ++ [AxiosGet (role_url u)] /\
    (accessToken w', refreshToken w', user w', avatar w')
      = (accessToken w, refreshToken w, user w, avatar w) /\
    cookies w' = cookies w /\ localStorage w' = localStorage w.
Proof.
  intros Hu Hc Hnet. rewrite Hc.
  rewrite (getRole_rejected env u w Hu Hnet).
  eexists. split; [reflexivity |]. cbn. by rewrite Hc.
Qed.

Lemma getRole_fetch_error_caches_nothing_witness :
  ("u2" <> "" /\ roleCache fresh = "" /\
   axios_get env_down (role_url "u2") = AxiosRejected) /\
  exists w' : World,
    getRole env_down (roleCache fresh) (Some "u2") fresh
      = (Rejected RoleFetchFailed, w') /\
    roleCache w' = "" /\
    calls w' = calls fresh ++ [AxiosGet (role_url "u2")] /\
    (accessToken w', refreshToken w', user w', avatar w')
      = (accessToken fresh, refreshToken fresh, user fresh, avatar fresh) /\
    cookies w' = cookies fresh /\ localStorage w' = localStorage fresh.
Proof.
  split; [repeat split; discriminate |].
  apply (getRole_fetch_error_caches_nothing env_down "u2" fresh);
    [discriminate | reflexivity | reflexivity].
Defined.

(** C6.  With [u] non-empty and nothing cached, if the backend answers with
    no value (null or the empty string), [getRole(u)] resolves to "User" and
    "User" is the cached role afterwards. *)
Theorem getRole_defaults_to_User
    (env : Env) (u : string) (data : option string) (w : World) :
  u <> "" -> roleCache w = "" ->
  axios_get env (role_url u) = AxiosResponse data -> truthy data = false ->
  exists w' : World,
    getRole env (roleCache w) (Some u) w = (Resolved "User", w') /\
    roleCache w' = "User" /\
    calls w' = calls w ++ [AxiosGet (role_url u)].
Proof.
  intros Hu Hc Hnet Hdata. rewrite Hc.
  rewrite (getRole_fetched env u data w Hu Hnet).
  rewrite (or_string_falsy data "User" Hdata).
  eexists. repeat split.
Qed.

Lemma getRole_defaults_to_User_witness :
  ("u1" <> "" /\ roleCache fresh = "" /\
   axios_get env_no_role (role_url "u1") = AxiosResponse (Some "") /\
   truthy (Some "") = false) /\
  exists w' : World,
    getRole env_no_role (roleCache fresh) (Some "u1") fresh = (Resolved "User", w') /\
    roleCache w' = "User" /\
    calls w' = calls fresh ++ [AxiosGet (role_url "u1")].
Proof.
  split; [repeat split; discriminate |].
  apply (getRole_defaults_to_User env_no_role "u1" (Some "") fresh);
    [discriminate | reflexivity | reflexivity | reflexivity].
Defined.




(** In general: a caller that keeps the [getRole] of an earlier render
    calls a closure that still sees the empty cache, and that call goes to
    the network again whatever the cell holds by then. *)
Remark getRole_stale_closure_refetches
    (env : Env) (u : string) (data : option string) (w : World) :
  u <> "" -> axios_get env (role_url u) = AxiosResponse data ->
  calls (exec (getRole env "" (Some u)) w) = calls w ++ [AxiosGet (role_url u)].
Proof.
  intros Hu Hnet. unfold exec. by rewrite (getRole_fetched env u data w Hu Hnet).
Qed.

(** [logout] takes the resolver back to the unresolved state and tells the
    task store to drop its tasks. *)
Lemma logout_unresolves (stringify : UserDto -> string) (w : World) :
  roleCache (exec (logout stringify) w) = "" /\
  calls (exec (logout stringify) w) = calls w ++ [DispatchClearTasks].
Proof. run. split; reflexivity. Qed.

(** * Further properties of the provider *)

(** Runs the monad by unfolding it, for goals where the tests have been
    decided already. *)
Ltac world :=
  cbv beta iota zeta delta
    [exec eval mbind mret M_bind M_ret fst snd negb
     logout setUser setAccessToken setRefreshToken fetchAndStoreAvatar
     fetchAndStoreAvatar_resume settle updateAvatar storeAvatar suspend
     setAccessToken_ setRefreshToken_ setUser_ setAvatar setRoleCache
     modify_cookies modify_localStorage Cookies_set Cookies_remove
     localStorage_setItem localStorage_removeItem console_error call set_inflight];
  cbn [accessToken refreshToken user avatar roleCache cookies localStorage
       console calls inflight].

(** ** Reloading the page *)

Lemma or_null_idemp (v : option string) : or_null (or_null v) = or_null v.
Proof. unfold or_null. destruct (truthy v) eqn:H; [by rewrite H | reflexivity]. Qed.

Lemma step_in_sync (stringify : UserDto -> string) (op : Op) (w : World) :
  in_sync stringify w -> in_sync stringify (step stringify w op).
Proof.
  unfold in_sync, stored_accessToken, stored_refreshToken, Cookies_get.
  intros (Ha & Hr & Hu).
  destruct op as [v|v|[u|]|env blob| |env uid|env]; cbn [step].
  - rewrite cookies_setAccessToken. run. unfold or_null in *.
    destruct (truthy v) eqn:Hv; cbn; simplify_map_eq; rewrite ?Hv; try done.
    destruct v; cbn in *; by rewrite ?Hv.
  - rewrite cookies_setRefreshToken. run. unfold or_null in *.
    destruct (truthy v) eqn:Hv; cbn; simplify_map_eq; rewrite ?Hv; try done.
    destruct v; cbn in *; by rewrite ?Hv.
  - run. destruct (truthy_number (avatarId u)); cbn; by simplify_map_eq.
  - run. by simplify_map_eq.
  - run. destruct (readAsDataURL env blob); cbn; done.
  - run. by simplify_map_eq.
  - run. destruct (truthy uid); cbn; [| done].
    destruct (truthy_string (roleCache w)); cbn; [done |].
    destruct (axios_get env _); cbn; done.
  - run. repeat (case_match; run); done.
Qed.

(** X1.  Whatever is done to a provider whose cells agree with the stores,
    they still agree: the token cookies hold exactly the non-empty tokens of
    the session, and the [user] cookie is the serialised user, if any. *)
Theorem session_stays_in_sync
    (stringify : UserDto -> string) (ops : list Op) (w : World) :
  in_sync stringify w -> in_sync stringify (run stringify ops w).
Proof.
  unfold run. revert w.
  induction ops as [|op ops IH]; intros w Hw; cbn; [exact Hw |].
  apply IH. by apply step_in_sync.
Qed.

Lemma session_stays_in_sync_witness :
  let ops := [OpSetAccessToken (Some "at"); OpSetUser (Some (mkUser "u1" (Some 42%Z)));
              OpGetRole env_ok (Some "u1"); OpSettle env_unreadable;
              OpSetRefreshToken (Some ""); OpSetUser None] in
  in_sync stringify_id fresh /\
  in_sync stringify_id (run stringify_id ops fresh).
Proof.
  split; [repeat split |].
  apply (session_stays_in_sync stringify_id _ fresh). repeat split.
Defined.

(** X2.  Mounting over stores that agree with a session restores it: the
    non-empty tokens, the user (when its cookie parses back to it) and the
    stored avatar; the role cache starts empty whatever it was. *)
Theorem mount_restores_session
    (stringify : UserDto -> string) (parse : string -> option UserDto) (w : World) :
  in_sync stringify w ->
  (forall u, user w = Some u -> stringify u <> "" /\ parse (stringify u) = Some u) ->
  exists w' : World,
    mount parse w = Some w' /\
    accessToken w' = or_null (accessToken w) /\
    refreshToken w' = or_null (refreshToken w) /\
    user w' = user w /\
    avatar w' = loadStoredAvatar w /\
    roleCache w' = "" /\
    cookies w' = cookies w /\ localStorage w' = localStorage w.
Proof.
  intros (Ha & Hr & Hu) Hparse. unfold mount. rewrite Hu.
  destruct (user w) as [u|] eqn:Huser; cbn.
  - destruct (Hparse u eq_refl) as [Hne Hp].
    apply truthy_string_true in Hne. rewrite Hne, Hp. cbn.
    eexists. split; [reflexivity |]. cbn. by rewrite Ha, Hr.
  - eexists. split; [reflexivity |]. cbn. by rewrite Ha, Hr.
Qed.

Lemma mount_restores_session_witness :
  let parse := fun s : string => Some (mkUser s (Some 42%Z)) in
  let w := run stringify_id
             [OpSetAccessToken (Some "at"); OpSetRefreshToken (Some "rt");
              OpSetUser (Some (mkUser "u1" (Some 42%Z)));
              OpGetRole env_ok (Some "u1")] fresh in
  roleCache w = "Admin" /\
  exists w' : World,
    mount parse w = Some w' /\
    accessToken w' = or_null (accessToken w) /\
    refreshToken w' = or_null (refreshToken w) /\
    user w' = user w /\
    avatar w' = loadStoredAvatar w /\
    roleCache w' = "" /\
    cookies w' = cookies w /\ localStorage w' = localStorage w.
Proof.
  split; [reflexivity |].
  apply (mount_restores_session stringify_id).
  - repeat split.
  - intros u [= <-]. split; [discriminate | reflexivity].
Defined.


Lemma logout_stores_empty (stringify : UserDto -> string) (w : World) :
  let w' := exec (logout stringify) w in
  Cookies_get "accessToken" w' = None /\ Cookies_get "refreshToken" w' = None /\
  Cookies_get "user" w' = None /\ localStorage_getItem "userAvatar" w' = None.
Proof. run. repeat split; by simplify_map_eq. Qed.

(** X4.  After [logout] a reload finds nothing to restore: the mount
    succeeds whatever the parser does, every cell is empty and nothing is
    pending. *)
Theorem mount_after_logout
    (stringify : UserDto -> string) (parse : string -> option UserDto) (w : World) :
  exists w' : World,
    mount parse (exec (logout stringify) w) = Some w' /\
    accessToken w' = None /\ refreshToken w' = None /\ user w' = None /\
    avatar w' = None /\ roleCache w' = "" /\ inflight w' = [].
Proof.
  destruct (logout_stores_empty stringify w) as (Ha & Hr & Hu & Hav).
  unfold mount, stored_accessToken, stored_refreshToken, loadStoredAvatar.
  rewrite Ha, Hr, Hu, Hav. cbn.
  eexists. by split; [reflexivity |].
Qed.

(** ** The avatar, in memory and stored *)

Lemma step_avatar_agrees (stringify : UserDto -> string) (op : Op) (w : World) :
  reader_ok op ->
  avatar w = loadStoredAvatar w ->
  avatar (step stringify w op) = loadStoredAvatar (step stringify w op).
Proof.
  intros Hok Hw. unfold loadStoredAvatar, localStorage_getItem in *.
  destruct op as [v|v|[u|]|env blob| |env uid|env]; cbn [step reader_ok] in *.
  - run. by destruct (truthy v).
  - run. by destruct (truthy v).
  - run. by destruct (truthy_number (avatarId u)).
  - run. by simplify_map_eq.
  - run. destruct (readAsDataURL env blob); [cbn; by simplify_map_eq | done].
  - run. by simplify_map_eq.
  - run. repeat (case_match; run); done.
  - run. destruct (inflight w) as [|a rest]; [done |]. run.
    destruct (downloadFile env a) as [blob|]; [| done]. run.
    specialize (Hok blob).
    destruct (readAsDataURL env blob); [cbn; by simplify_map_eq | done].
Qed.

(** X5.  As long as the reader never fails, the avatar shown is the avatar
    stored: no operation makes the cell and [localStorage] disagree, so a
    reload shows the same picture. *)
Theorem avatar_agrees_with_store
    (stringify : UserDto -> string) (ops : list Op) (w : World) :
  Forall reader_ok ops ->
  avatar w = loadStoredAvatar w ->
  avatar (run stringify ops w) = loadStoredAvatar (run stringify ops w).
Proof.
  unfold run. intros Hops. revert w.
  induction Hops as [|op ops Hop _ IH]; intros w Hw; cbn; [exact Hw |].
  apply IH. by apply step_avatar_agrees.
Qed.

Lemma avatar_agrees_with_store_witness :
  let ops := [OpSetUser (Some (mkUser "u1" (Some 42%Z))); OpSettle env_ok;
              OpUpdateAvatar env_ok [x00]; OpSetUser (Some (mkUser "u2" None))] in
  Forall reader_ok ops /\
  avatar (run stringify_id ops fresh) = Some "data:image/png;base64,iVBORw==" /\
  avatar (run stringify_id ops fresh) = loadStoredAvatar (run stringify_id ops fresh).
Proof.
  assert (Hops : Forall reader_ok
            [OpSetUser (Some (mkUser "u1" (Some 42%Z))); OpSettle env_ok;
             OpUpdateAvatar env_ok [x00]; OpSetUser (Some (mkUser "u2" None))]).
  { repeat constructor; cbn; discriminate. }
  split; [exact Hops |]. split; [reflexivity |].
  apply (avatar_agrees_with_store stringify_id _ fresh Hops). reflexivity.
Defined.

(** X6.  [updateAvatar] with a readable blob resolves; the data URL is then
    both the avatar cell and the stored avatar, and nothing else moved: no
    call left the component, and tokens, user, role and cookies are as they
    were. *)
Theorem updateAvatar_readable
    (env : Env) (blob : Blob) (url : string) (w : World) :
  readAsDataURL env blob = Some url ->
  eval (updateAvatar env blob) w = Resolved tt /\
  let w' := exec (updateAvatar env blob) w in
  avatar w' = Some url /\ loadStoredAvatar w' = Some url /\
  calls w' = calls w /\ console w' = console w /\ cookies w' = cookies w /\
  (accessToken w', refreshToken w', user w', roleCache w')
    = (accessToken w, refreshToken w, user w, roleCache w) /\
  (forall k, k <> "userAvatar" -> localStorage w' !! k = localStorage w !! k).
Proof.
  intros H. run. rewrite H. run. repeat split; try by simplify_map_eq.
  intros k Hk. by simplify_map_eq.
Qed.

Lemma updateAvatar_readable_witness :
  readAsDataURL env_ok [x00] = Some "data:image/png;base64,iVBORw==" /\
  avatar (exec (updateAvatar env_ok [x00]) signed_in)
    = Some "data:image/png;base64,iVBORw==" /\
  loadStoredAvatar (exec (updateAvatar env_ok [x00]) signed_in)
    = Some "data:image/png;base64,iVBORw==".
Proof.
  split; [reflexivity |].
  pose proof (updateAvatar_readable env_ok [x00] _ signed_in eq_refl) as (_ & Ha & Hs & _).
  exact (conj Ha Hs).
Defined.

(** X7.  [updateAvatar] with a blob the reader cannot read is rejected with
    the reader's error event, so the caller sees the failure; the avatar
    cell keeps its value and nothing is logged or sent, while the stored
    avatar has become the string ["null"]. *)
Theorem updateAvatar_unreadable (env : Env) (blob : Blob) (w : World) :
  readAsDataURL env blob = None ->
  eval (updateAvatar env blob) w = Rejected (ProgressEvent "error") /\
  let w' := exec (updateAvatar env blob) w in
  avatar w' = avatar w /\ loadStoredAvatar w' = Some "null" /\
  calls w' = calls w /\ console w' = console w /\ cookies w' = cookies w.
Proof.
  intros H. run. rewrite H. run. repeat split. by simplify_map_eq.
Qed.

Lemma updateAvatar_unreadable_witness :
  readAsDataURL env_unreadable [x00] = None /\
  eval (updateAvatar env_unreadable [x00]) signed_in = Rejected (ProgressEvent "error") /\
  avatar (exec (updateAvatar env_unreadable [x00]) signed_in) = avatar signed_in.
Proof.
  split; [reflexivity |].
  pose proof (updateAvatar_unreadable env_unreadable [x00] signed_in eq_refl)
    as (Hr & Ha & _).
  exact (conj Hr Ha).
Defined.

(** X8.  Signing in a user that has no usable avatar id (none, or 0) makes
    it the user and leaves the avatar alone: the cell and the stored avatar
    keep what the previous user left there, and no download is started. *)
Theorem setUser_without_avatar_keeps_old_avatar
    (stringify : UserDto -> string) (U : UserDto) (w : World) :
  truthy_number (avatarId U) = false ->
  let w' := exec (setUser stringify (Some U)) w in
  user w' = Some U /\
  avatar w' = avatar w /\ loadStoredAvatar w' = loadStoredAvatar w /\
  calls w' = calls w /\ inflight w' = inflight w.
Proof.
  intros H. run. rewrite H. run. repeat split.
Qed.

Lemma setUser_without_avatar_keeps_old_avatar_witness :
  let U := mkUser "u2" None in
  let w' := exec (setUser stringify_id (Some U)) signed_in in
  truthy_number (avatarId U) = false /\
  user w' = Some U /\
  avatar w' = Some "data:image/png;base64,AA==" /\
  loadStoredAvatar w' = Some "data:image/png;base64,AA==".
Proof.
  split; [reflexivity |].
  pose proof (setUser_without_avatar_keeps_old_avatar stringify_id
                (mkUser "u2" None) signed_in eq_refl) as (Hu & Ha & Hs & _).
  exact (conj Hu (conj Ha Hs)).
Defined.

(** ** Worlds in closed form *)

Lemma setUser_fetch_world
    (stringify : UserDto -> string) (U : UserDto) (a : Z) (w : World) :
  avatarId U = Some a -> a <> 0%Z ->
  exec (setUser stringify (Some U)) w =
  mkWorld (accessToken w) (refreshToken w) (Some U) (avatar w) (roleCache w)
          (<["user" := stringify U]> (cookies w)) (localStorage w) (console w)
          (calls w ++ [DownloadFile a]) (inflight w ++ [a]).
Proof.
  intros Ha Hnz. apply Z.eqb_neq in Hnz.
  unfold exec, setUser, fetchAndStoreAvatar. rewrite Ha. cbn [truthy_number default].
  rewrite Hnz. reflexivity.
Qed.

Lemma logout_world (stringify : UserDto -> string) (w : World) :
  exec (logout stringify) w =
  mkWorld None None None None ""
          (delete "user" (delete "refreshToken" (delete "accessToken" (cookies w))))
          (delete "userAvatar" (delete "userAvatar" (localStorage w)))
          (console w) (calls w ++ [DispatchClearTasks]) (inflight w).
Proof. reflexivity. Qed.

Lemma settle_arrives_world
    (env : Env) (a : Z) (rest : list Z) (blob : Blob) (url : string) (w : World) :
  inflight w = a :: rest ->
  downloadFile env a = Some blob -> readAsDataURL env blob = Some url ->
  exec (settle env) w =
  mkWorld (accessToken w) (refreshToken w) (user w) (Some url) (roleCache w)
          (cookies w) (<["userAvatar" := url]> (localStorage w)) (console w)
          (calls w) rest.
Proof.
  intros Hin Hd Hr. unfold exec, settle. rewrite Hin.
  unfold fetchAndStoreAvatar_resume, storeAvatar. cbn. rewrite Hd. cbn.
  rewrite Hr. reflexivity.
Qed.

(** X9.  The sign-in path to the end: with nothing pending, [setUser] for a
    user with a usable avatar id followed by the download and the read
    succeeding leaves the data URL in the avatar cell and under
    [userAvatar], with one download requested, nothing logged and nothing
    pending. *)
Theorem setUser_then_avatar_arrives
    (stringify : UserDto -> string) (env : Env) (U : UserDto) (a : Z)
    (blob : Blob) (url : string) (w : World) :
  inflight w = [] ->
  avatarId U = Some a -> a <> 0%Z ->
  downloadFile env a = Some blob -> readAsDataURL env blob = Some url ->
  let w' := exec (settle env) (exec (setUser stringify (Some U)) w) in
  user w' = Some U /\
  avatar w' = Some url /\ loadStoredAvatar w' = Some url /\
  calls w' = calls w ++ [DownloadFile a] /\
  console w' = console w /\ inflight w' = [].
Proof.
  intros Hin Ha Hnz Hd Hr.
  rewrite (setUser_fetch_world stringify U a w Ha Hnz), Hin.
  erewrite (settle_arrives_world env a [] blob url); [| reflexivity | exact Hd | exact Hr].
  unfold loadStoredAvatar, localStorage_getItem. cbn.
  repeat split. by simplify_map_eq.
Qed.

Lemma setUser_then_avatar_arrives_witness :
  let U := mkUser "u1" (Some 42%Z) in
  let w' := exec (settle env_ok) (exec (setUser stringify_id (Some U)) fresh) in
  avatar w' = Some "data:image/png;base64,iVBORw==" /\
  loadStoredAvatar w' = Some "data:image/png;base64,iVBORw==".
Proof.
  pose proof (setUser_then_avatar_arrives stringify_id env_ok
                (mkUser "u1" (Some 42%Z)) 42%Z [x89; x50; x4e; x47]
                "data:image/png;base64,iVBORw==" fresh
                eq_refl eq_refl ltac:(discriminate) eq_refl eq_refl)
    as (_ & Ha & Hs & _).
  exact (conj Ha Hs).
Defined.

(** X10.  [logout] does not cancel an avatar download that is under way: if
    the user signs in, signs out before the download settles, and the
    download then succeeds, the signed-out session ends up with that user's
    picture in the avatar cell and in [localStorage]. *)
Theorem logout_does_not_cancel_avatar_fetch
    (stringify : UserDto -> string) (env : Env) (U : UserDto) (a : Z)
    (blob : Blob) (url : string) (w : World) :
  inflight w = [] ->
  avatarId U = Some a -> a <> 0%Z ->
  downloadFile env a = Some blob -> readAsDataURL env blob = Some url ->
  let w' := exec (settle env)
              (exec (logout stringify) (exec (setUser stringify (Some U)) w)) in
  user w' = None /\ accessToken w' = None /\ Cookies_get "user" w' = None /\
  avatar w' = Some url /\ loadStoredAvatar w' = Some url.
Proof.
  intros Hin Ha Hnz Hd Hr.
  rewrite (setUser_fetch_world stringify U a w Ha Hnz), Hin, logout_world.
  erewrite (settle_arrives_world env a [] blob url); [| reflexivity | exact Hd | exact Hr].
  unfold loadStoredAvatar, localStorage_getItem, Cookies_get. cbn.
  repeat split; by simplify_map_eq.
Qed.

Lemma logout_does_not_cancel_avatar_fetch_witness :
  let U := mkUser "u1" (Some 42%Z) in
  let w' := exec (settle env_ok)
              (exec (logout stringify_id) (exec (setUser stringify_id (Some U)) fresh)) in
  user w' = None /\ avatar w' = Some "data:image/png;base64,iVBORw==".
Proof.
  pose proof (logout_does_not_cancel_avatar_fetch stringify_id env_ok
                (mkUser "u1" (Some 42%Z)) 42%Z [x89; x50; x4e; x47]
                "data:image/png;base64,iVBORw==" fresh
                eq_refl eq_refl ltac:(discriminate) eq_refl eq_refl)
    as (Hu & _ & _ & Ha & _).
  exact (conj Hu Ha).
Defined.

(** ** The role, over a whole session *)

Lemma step_keeps_role (stringify : UserDto -> string) (op : Op) (w : World) :
  is_logout op = false -> roleCache w <> "" ->
  roleCache (step stringify w op) = roleCache w /\
  List.filter is_role_request (calls (step stringify w op))
    = List.filter is_role_request (calls w).
Proof.
  intros Hop Hrole. apply truthy_string_true in Hrole.
  destruct op as [v|v|[u|]|env blob| |env uid|env]; cbn [step]; try discriminate.
  - run. by destruct (truthy v).
  - run. by destruct (truthy v).
  - run. destruct (truthy_number (avatarId u)); world; [| done].
    split; [done |]. rewrite List.filter_app. cbn. by rewrite app_nil_r.
  - run. done.
  - run. by destruct (readAsDataURL env blob).
  - run. destruct (truthy uid); run; [| done]. by rewrite Hrole.
  - run. repeat (case_match; run); done.
Qed.

Lemma act_keeps_role (stringify : UserDto -> string) (a : Act) (w : World) :
  spares_role a = true -> roleCache w <> "" ->
  roleCache (act stringify w a) = roleCache w /\
  List.filter is_role_request (calls (act stringify w a))
    = List.filter is_role_request (calls w).
Proof.
  destruct a as [op|env seen uid]; cbn [act spares_role]; intros Ha Hrole.
  - apply step_keeps_role; [by apply negb_true_iff | exact Hrole].
  - unfold exec, getRole. destruct (truthy uid); cbn; [| done]. by rewrite Ha.
Qed.

(** X11.  Once a role is cached it is kept until [logout], as long as no
    [getRole] is called through a closure that saw an empty cache, no role
    lookup is under way and each operation settles before the next: every
    other operation, a change of user included, and every [getRole] taken
    from the current context or kept from a render that held a role,
    whatever the user id, leaves the cached role as it is and sends no
    role request. *)
Theorem role_kept_until_logout
    (stringify : UserDto -> string) (acts : list Act) (w : World) :
  roleCache w <> "" ->
  forallb spares_role acts = true ->
  roleCache (run_acts stringify acts w) = roleCache w /\
  List.filter is_role_request (calls (run_acts stringify acts w))
    = List.filter is_role_request (calls w).
Proof.
  unfold run_acts. revert w.
  induction acts as [|a acts IH]; intros w Hrole Hacts; cbn; [done |].
  cbn in Hacts. apply andb_true_iff in Hacts as [Ha Hacts].
  destruct (act_keeps_role stringify a w Ha Hrole) as [Hr Hc].
  destruct (IH (act stringify w a)) as [Hr' Hc']; [by rewrite Hr | exact Hacts |].
  by rewrite Hr', Hc', Hr, Hc.
Qed.

Lemma role_kept_until_logout_witness :
  let acts := [ActCurrent (OpSetUser None);
               ActCurrent (OpSetUser (Some (mkUser "u2" (Some 7%Z))));
               ActCurrent (OpGetRole env_no_role (Some "u2"));
               ActKeptGetRole env_no_role "Mentor" (Some "u3");
               ActCurrent (OpSettle env_ok)] in
  (roleCache signed_in <> "" /\ forallb spares_role acts = true) /\
  roleCache (run_acts stringify_id acts signed_in) = "Admin" /\
  List.filter is_role_request (calls (run_acts stringify_id acts signed_in)) = [].
Proof.
  split; [split; [discriminate | reflexivity] |].
  apply (role_kept_until_logout stringify_id
           [ActCurrent (OpSetUser None);
            ActCurrent (OpSetUser (Some (mkUser "u2" (Some 7%Z))));
            ActCurrent (OpGetRole env_no_role (Some "u2"));
            ActKeptGetRole env_no_role "Mentor" (Some "u3");
            ActCurrent (OpSettle env_ok)] signed_in);
    [discriminate | reflexivity].
Defined.

(** X12.  Whenever [getRole] resolves, through the function of any render,
    the role is not the empty string and the user id was not empty.  If the
    closure saw a role, that role is the answer and the world is untouched;
    otherwise one request was sent and the answer is the cached role
    afterwards.  For a call through the current context the answer is the
    cached role afterwards in both cases. *)
Theorem getRole_resolves_nonempty
    (env : Env) (seen : string) (userId : option string) (role : string)
    (w w1 : World) :
  getRole env seen userId w = (Resolved role, w1) ->
  role <> "" /\ truthy userId = true /\
  (if truthy_string seen
   then role = seen /\ w1 = w
   else roleCache w1 = role /\
        calls w1 = calls w ++ [AxiosGet (role_url (default "" userId))]) /\
  (seen = roleCache w -> roleCache w1 = role).
Proof.
  unfold getRole. destruct (truthy userId); cbn; [| intros [=]].
  destruct (truthy_string seen) eqn:Hs; cbn.
  - intros [= <- <-]. repeat split; [by apply truthy_string_true | done].
  - destruct (axios_get env _) as [|data]; cbn; [intros [=] |].
    intros [= <- <-]. repeat split.
    apply truthy_string_true, or_string_truthy. discriminate.
Qed.

Lemma getRole_resolves_nonempty_witness :
  getRole env_no_role "Admin" (Some "u1") fresh = (Resolved "Admin", fresh) /\
  "Admin" <> "" /\ truthy (Some "u1") = true /\
  (if truthy_string "Admin"
   then "Admin" = "Admin" /\ fresh = fresh
   else roleCache fresh = "Admin" /\
        calls fresh = calls fresh ++ [AxiosGet (role_url (default "" (Some "u1")))]) /\
  ("Admin" = roleCache fresh -> roleCache fresh = "Admin").
Proof.
  split; [reflexivity |].
  apply (getRole_resolves_nonempty env_no_role "Admin" (Some "u1") "Admin" fresh fresh).
  reflexivity.
Defined.

(** X13.  A failed lookup can be retried: after a rejected request nothing
    is cached, so the next [getRole] asks the backend again, and resolves
    if it answers; the trace then holds both requests. *)
Theorem getRole_retry_after_failure
    (env1 env2 : Env) (u : string) (data : option string) (w : World) :
  u <> "" -> roleCache w = "" ->
  axios_get env1 (role_url u) = AxiosRejected ->
  axios_get env2 (role_url u) = AxiosResponse data ->
  exists w1 w2 : World,
    getRole env1 (roleCache w) (Some u) w = (Rejected RoleFetchFailed, w1) /\
    getRole env2 (roleCache w1) (Some u) w1
      = (Resolved (or_string data "User"), w2) /\
    roleCache w2 = or_string data "User" /\
    calls w2 = calls w ++ [AxiosGet (role_url u); AxiosGet (role_url u)].
Proof.
  intros Hu Hc H1 H2. rewrite Hc.
  rewrite (getRole_rejected env1 u w Hu H1).
  eexists _, _. split; [reflexivity |].
  assert (Hc1 : roleCache (exec (call (AxiosGet (role_url u))) w) = "")
    by (cbn; exact Hc).
  rewrite Hc1. rewrite (getRole_fetched env2 u data _ Hu H2).
  split; [reflexivity |]. split; [reflexivity |].
  world. by rewrite <- app_assoc.
Qed.

Lemma getRole_retry_after_failure_witness :
  exists w1 w2 : World,
    getRole env_down (roleCache fresh) (Some "u1") fresh
      = (Rejected RoleFetchFailed, w1) /\
    getRole env_ok (roleCache w1) (Some "u1") w1
      = (Resolved (or_string (Some "Admin") "User"), w2) /\
    roleCache w2 = or_string (Some "Admin") "User" /\
    calls w2 = calls fresh ++ [AxiosGet (role_url "u1"); AxiosGet (role_url "u1")].
Proof.
  apply (getRole_retry_after_failure env_down env_ok "u1" (Some "Admin") fresh);
    [discriminate | reflexivity | reflexivity | reflexivity].
Defined.

(** X14.  [logout] empties the role cache and nothing more: called on the
    world [logout] leaves, a [getRole] taken from the context rendered
    after it, for a non-empty id, sends a request whatever was cached
    before and resolves to what the backend answers now, while a [getRole]
    kept from a render that saw a role still answers with that role,
    sends nothing and leaves the cache empty. *)
Theorem getRole_after_logout_refetches
    (stringify : UserDto -> string) (env : Env) (u seen : string)
    (data : option string) (w : World) :
  u <> "" -> seen <> "" -> axios_get env (role_url u) = AxiosResponse data ->
  let w0 := exec (logout stringify) w in
  roleCache w0 = "" /\
  eval (getRole env (roleCache w0) (Some u)) w0 = Resolved (or_string data "User") /\
  calls (exec (getRole env (roleCache w0) (Some u)) w0)
    = calls w ++ [DispatchClearTasks; AxiosGet (role_url u)] /\
  getRole env seen (Some u) w0 = (Resolved seen, w0).
Proof.
  intros Hu Hseen Hnet w0.
  assert (Hc : roleCache w0 = "") by (subst w0; by rewrite logout_world).
  split; [exact Hc |]. split; [| split].
  - unfold eval. by rewrite Hc, (getRole_fetched env u data w0 Hu Hnet).
  - unfold exec. rewrite Hc, (getRole_fetched env u data w0 Hu Hnet).
    subst w0. rewrite logout_world. world. by rewrite <- app_assoc.
  - by apply getRole_cached.
Qed.

Lemma getRole_after_logout_refetches_witness :
  roleCache signed_in = "Admin" /\
  let w0 := exec (logout stringify_id) signed_in in
  roleCache w0 = "" /\
  eval (getRole env_no_role (roleCache w0) (Some "u1")) w0 = Resolved "User" /\
  calls (exec (getRole env_no_role (roleCache w0) (Some "u1")) w0)
    = calls signed_in ++ [DispatchClearTasks; AxiosGet (role_url "u1")] /\
  getRole env_no_role "Admin" (Some "u1") w0 = (Resolved "Admin", w0).
Proof.
  split; [reflexivity |].
  apply (getRole_after_logout_refetches stringify_id env_no_role "u1" "Admin"
           (Some "") signed_in);
    [discriminate | discriminate | reflexivity].
Defined.

Lemma getRole_start_then_resume
    (env : Env) (seen : string) (userId : option string) (w : World) :
  getRole env seen userId w =
  match getRole_start seen userId w with
  | (Settled result, w1) => (result, w1)
  | (Awaiting url, w1) => getRole_resume (axios_get env url) w1
  end.
Proof.
  unfold getRole, getRole_start, getRole_resume.
  destruct (truthy userId); cbn; [| reflexivity].
  destruct (truthy_string seen); cbn; [reflexivity |].
  world. destruct (axios_get env _); reflexivity.
Qed.

(** X27.  [logout] does not cancel a role lookup that is under way: if
    [getRole] has sent its request from an empty cache, [logout] runs
    before the answer, and the backend then answers, the signed-out
    session ends with that role cached, and the next [getRole] from the
    current context, for any non-empty id, answers with it and sends
    nothing. *)
Theorem logout_does_not_cancel_role_lookup
    (stringify : UserDto -> string) (env : Env) (u u' : string)
    (data : option string) (w : World) :
  u <> "" -> u' <> "" ->
  let w1 := exec (getRole_start "" (Some u)) w in
  let w2 := exec (logout stringify) w1 in
  let w3 := exec (getRole_resume (AxiosResponse data)) w2 in
  eval (getRole_start "" (Some u)) w = Awaiting (role_url u) /\
  roleCache w2 = "" /\ user w3 = None /\ accessToken w3 = None /\
  roleCache w3 = or_string data "User" /\ roleCache w3 <> "" /\
  getRole env (roleCache w3) (Some u') w3 = (Resolved (or_string data "User"), w3).
Proof.
  intros Hu Hu' w1 w2 w3.
  assert (Hr : or_string data "User" <> "").
  { apply truthy_string_true, or_string_truthy. discriminate. }
  apply truthy_string_true in Hu as Hut.
  assert (H2 : roleCache w2 = "") by (subst w2; by rewrite logout_world).
  assert (Hu2 : user w2 = None /\ accessToken w2 = None)
    by (subst w2; by rewrite logout_world).
  assert (H3 : roleCache w3 = or_string data "User") by reflexivity.
  split; [| split; [exact H2 | split; [| split; [| split; [exact H3 | split]]]]].
  - unfold eval, getRole_start. cbn. rewrite Hut. reflexivity.
  - apply Hu2.
  - apply Hu2.
  - by rewrite H3.
  - rewrite H3. by apply getRole_cached.
Qed.

Lemma logout_does_not_cancel_role_lookup_witness :
  let w1 := exec (getRole_start "" (Some "u1")) signed_in in
  let w3 := exec (getRole_resume (AxiosResponse (Some "Admin")))
              (exec (logout stringify_id) w1) in
  user w3 = None /\ roleCache w3 = "Admin".
Proof.
  pose proof (logout_does_not_cancel_role_lookup stringify_id env_down "u1" "u2"
                (Some "Admin") signed_in ltac:(discriminate) ltac:(discriminate))
    as (_ & _ & Hu & _ & Hr & _).
  exact (conj Hu Hr).
Defined.

(** X15.  A second [logout] finds nothing left to clear: all it does is
    dispatch [clearTasks] once more. *)
Theorem logout_twice (stringify : UserDto -> string) (w : World) :
  exec (logout stringify) (exec (logout stringify) w)
  = exec (call DispatchClearTasks) (exec (logout stringify) w).
Proof.
  rewrite !logout_world. world. f_equal.
  - apply map_eq. intros k. rewrite !lookup_delete.
    repeat case_decide; reflexivity.
  - rewrite !delete_delete_eq. reflexivity.
Qed.

(** * The user service *)

Section UserServiceFacts.

Import UserService.

Lemma handleError_throws (operation : string) (error : AxiosError) (io : Io) :
  exists msg : string,
    handleError operation error io
      = (Threw (NewError msg),
         mkIo (UserService.console io ++ [operation +:+ " failed:"]) (requests io)) /\
    msg <> "" /\
    msg = match response error with
          | None => "API is not available"
          | Some r => or_string (data r ≫= message) "An unexpected error occurred"
          end.
Proof.
  unfold handleError. destruct (response error) as [r|]; cbn.
  - eexists. split; [reflexivity |]. split; [| reflexivity].
    apply truthy_string_true, or_string_truthy. discriminate.
  - eexists. split; [reflexivity |]. split; [discriminate | reflexivity].
Qed.

(** X16.  When the request fails, [addUser] is rejected with a new [Error]
    and never with the error it caught: the message is "API is not
    available" when the error has no response, the backend's message when
    there is a non-empty one, and "An unexpected error occurred" otherwise;
    it is never empty.  One line is logged and the one request was sent. *)
Theorem addUser_failure
    (http : Request -> Answer) (user : UserDto) (error : AxiosError) (io : Io) :
  http (Post "/User/Add" user) = Failed error ->
  exists msg : string,
    addUser http user io
      = (Threw (NewError msg),
         mkIo (UserService.console io ++ ["addUser failed:"])
              (requests io ++ [Post "/User/Add" user])) /\
    msg <> "" /\
    msg = match response error with
          | None => "API is not available"
          | Some r => or_string (data r ≫= message) "An unexpected error occurred"
          end.
Proof.
  intros Hhttp. unfold addUser, handleError. cbn. rewrite Hhttp. cbn.
  destruct (response error) as [r|]; cbn.
  - eexists. split; [reflexivity |]. split; [| reflexivity].
    apply truthy_string_true, or_string_truthy. discriminate.
  - eexists. split; [reflexivity |]. split; [discriminate | reflexivity].
Qed.

Lemma addUser_failure_witness :
  let error := mkAxiosError (Some (mkResponse (Some (mkBody (Some ""))))) in
  let http := fun _ : Request => Failed error in
  exists msg : string,
    addUser http (mkUser "u1" None) (mkIo [] [])
      = (Threw (NewError msg),
         mkIo ["addUser failed:"] [Post "/User/Add" (mkUser "u1" None)]) /\
    msg <> "" /\ msg = "An unexpected error occurred".
Proof.
  apply (addUser_failure
           (fun _ => Failed (mkAxiosError (Some (mkResponse (Some (mkBody (Some "")))))))
           (mkUser "u1" None)
           (mkAxiosError (Some (mkResponse (Some (mkBody (Some ""))))))
           (mkIo [] [])).
  reflexivity.
Defined.

(** X17.  [editUser] sends its PATCH to "/User/Edit/" followed by the id
    as given, an empty id included (nothing checks it); when the request
    fails it is rejected like [addUser], with the same three messages, and
    logs one line. *)
Theorem editUser_failure
    (http : Request -> Answer) (userId : string) (updateData : PartialUserDto)
    (error : AxiosError) (io : Io) :
  http (Patch ("/User/Edit/" +:+ userId) updateData) = Failed error ->
  exists msg : string,
    editUser http userId updateData io
      = (Threw (NewError msg),
         mkIo (UserService.console io ++ ["editUser failed:"])
              (requests io ++ [Patch ("/User/Edit/" +:+ userId) updateData])) /\
    msg <> "" /\
    msg = match response error with
          | None => "API is not available"
          | Some r => or_string (data r ≫= message) "An unexpected error occurred"
          end.
Proof.
  intros Hhttp. unfold editUser, handleError. cbn. rewrite Hhttp. cbn.
  destruct (response error) as [r|]; cbn.
  - eexists. split; [reflexivity |]. split; [| reflexivity].
    apply truthy_string_true, or_string_truthy. discriminate.
  - eexists. split; [reflexivity |]. split; [discriminate | reflexivity].
Qed.

Lemma editUser_failure_witness :
  let http := fun _ : Request => Failed (mkAxiosError None) in
  exists msg : string,
    editUser http "" (mkPartial None None) (mkIo [] [])
      = (Threw (NewError msg),
         mkIo ["editUser failed:"] [Patch "/User/Edit/" (mkPartial None None)]) /\
    msg <> "" /\ msg = "API is not available".
Proof.
  apply (editUser_failure (fun _ => Failed (mkAxiosError None)) ""
           (mkPartial None None) (mkAxiosError None) (mkIo [] [])).
  reflexivity.
Defined.

(** X18.  Neither function ever rethrows the error it caught, whatever the
    backend answers: the [throw error] that follows [handleError] in each
    [catch] is never reached. *)
Theorem service_never_rethrows
    (http : Request -> Answer) (user : UserDto) (userId : string)
    (updateData : PartialUserDto) (io : Io) (e : AxiosError) :
  fst (addUser http user io) <> Threw (Caught e) /\
  fst (editUser http userId updateData io) <> Threw (Caught e).
Proof.
  unfold addUser, editUser, handleError. cbn.
  destruct (http (Post "/User/Add" user)) as [d1|e1];
    destruct (http (Patch _ updateData)) as [d2|e2]; cbn.
  all: try destruct (response e1); try destruct (response e2); cbn.
  all: split; discriminate.
Qed.

(** X19.  When the backend accepts, both functions return the data of the
    response, log nothing and have sent exactly their one request. *)
Theorem service_success
    (http : Request -> Answer) (user : UserDto) (userId : string)
    (updateData : PartialUserDto) (d1 d2 : UserDto) (io : Io) :
  http (Post "/User/Add" user) = Ok d1 ->
  http (Patch ("/User/Edit/" +:+ userId) updateData) = Ok d2 ->
  addUser http user io
    = (Returned d1, mkIo (UserService.console io) (requests io ++ [Post "/User/Add" user])) /\
  editUser http userId updateData io
    = (Returned d2,
       mkIo (UserService.console io)
            (requests io ++ [Patch ("/User/Edit/" +:+ userId) updateData])).
Proof.
  intros H1 H2. unfold addUser, editUser. cbn. by rewrite H1, H2.
Qed.

Lemma service_success_witness :
  let http := fun r : Request =>
                match r with
                | Post _ body => Ok body
                | Patch _ _ => Ok (mkUser "u1" (Some 7%Z))
                end in
  addUser http (mkUser "u1" None) (mkIo [] [])
    = (Returned (mkUser "u1" None), mkIo [] [Post "/User/Add" (mkUser "u1" None)]) /\
  editUser http "u1" (mkPartial None (Some (Some 7%Z))) (mkIo [] [])
    = (Returned (mkUser "u1" (Some 7%Z)),
       mkIo [] [Patch "/User/Edit/u1" (mkPartial None (Some (Some 7%Z)))]).
Proof.
  apply (service_success
           (fun r => match r with
                     | Post _ body => Ok body
                     | Patch _ _ => Ok (mkUser "u1" (Some 7%Z))
                     end)
           (mkUser "u1" None) "u1" (mkPartial None (Some (Some 7%Z)))
           (mkUser "u1" None) (mkUser "u1" (Some 7%Z)) (mkIo [] []));
    reflexivity.
Defined.

End UserServiceFacts.

(** * The material list *)

Section MaterialsFacts.

Import Materials.

Variable toLowerCase : string -> string.

Lemma prefix_empty (s : string) : String.prefix "" s = true.
Proof. by destruct s. Qed.

Lemma prefix_spec (sub s : string) :
  String.prefix sub s = true <-> exists rest, s = sub +:+ rest.
Proof.
  revert s. induction sub as [|c sub IH]; intros s.
  - rewrite prefix_empty. split; [intros _; by exists s | done].
  - destruct s as [|c' s]; cbn.
    + split; [done | intros (r & H); discriminate H].
    + destruct (Ascii.ascii_dec c c') as [<-|Hne].
      * rewrite IH. split; intros (r & H); exists r; [by rewrite H | by injection H].
      * split; [done |]. intros (r & H). injection H as H1 H2. congruence.
Qed.

Lemma includes_spec (s sub : string) :
  includes s sub = true <-> exists before after, s = before +:+ sub +:+ after.
Proof.
  induction s as [|c s IH]; cbn [includes]; rewrite orb_true_iff, prefix_spec.
  - split.
    + intros [(r & H)|H]; [| done]. exists "", r. exact H.
    + intros (b & a & H). left. destruct b; cbn in H; [by exists a | done].
  - rewrite IH. split.
    + intros [(r & H)|(b & a & H)].
      * by exists "", r.
      * exists (String c b), a. cbn. by rewrite H.
    + intros (b & a & H). destruct b as [|c' b]; cbn in H.
      * left. by exists a.
      * right. injection H as _ H. by exists b, a.
Qed.

Lemma includes_empty (s : string) : includes s "" = true.
Proof. apply includes_spec. by exists "", s. Qed.

Lemma displayed_spec (s : State) (material : MaterialDto) :
  displayed s material = true <->
  exists m, In m (searchedList s) /\ id m = id material.
Proof.
  unfold displayed, isVisible.
  destruct (List.find _ _) as [m|] eqn:Hfind.
  - apply List.find_some in Hfind as [Hin Heq]. apply Z.eqb_eq in Heq.
    split; [intros _; by exists m | done].
  - split; [done |]. intros (m & Hin & Heq).
    pose proof (List.find_none _ _ Hfind m Hin) as Hm. cbn in Hm.
    apply Z.eqb_neq in Hm. done.
Qed.

(** X20.  After the filter effect a row is displayed exactly when some
    material of the list with the same id has a name that contains the
    search term, both taken in lower case. *)
Theorem displayed_after_filter (s : State) (material : MaterialDto) :
  displayed (filteredMaterials toLowerCase s) material = true <->
  exists m, In m (materialList s) /\ id m = id material /\
            exists before after,
              toLowerCase (name m)
              = before +:+ toLowerCase (searchTerm s) +:+ after.
Proof.
  rewrite displayed_spec. cbn. split.
  - intros (m & Hin & Hid). apply List.filter_In in Hin as [Hin Hm].
    exists m. repeat split; [exact Hin | exact Hid |]. by apply includes_spec.
  - intros (m & Hin & Hid & Hm). exists m. split; [| exact Hid].
    apply List.filter_In. split; [exact Hin |]. by apply includes_spec.
Qed.

Lemma same_id_same_material (l : list MaterialDto) (m m' : MaterialDto) :
  List.NoDup (List.map id l) -> In m l -> In m' l -> id m = id m' -> m = m'.
Proof.
  induction l as [|x l IH]; cbn; [done |].
  intros Hnd [Hm|Hm] [Hm'|Hm'] Hid; inversion Hnd as [|? ? Hx Hl]; subst.
  - reflexivity.
  - exfalso. apply Hx. rewrite Hid. by apply List.in_map.
  - exfalso. apply Hx. rewrite <- Hid. by apply List.in_map.
  - by apply IH.
Qed.

(** X21.  When the ids of the list are pairwise different, a material of
    the list is displayed after the filter effect exactly when its own name
    contains the search term, case aside. *)
Theorem displayed_iff_matches (s : State) (material : MaterialDto) :
  List.NoDup (List.map id (materialList s)) ->
  In material (materialList s) ->
  displayed (filteredMaterials toLowerCase s) material
  = matches toLowerCase (searchTerm s) material.
Proof.
  intros Hnd Hin.
  destruct (matches toLowerCase (searchTerm s) material) eqn:Hm.
  - apply displayed_spec. exists material. split; [| reflexivity].
    cbn. apply List.filter_In. by split.
  - apply not_true_is_false. intros Hd.
    apply displayed_spec in Hd as (m & Hm' & Hid). cbn in Hm'.
    apply List.filter_In in Hm' as [Hm' Hmatch].
    rewrite (same_id_same_material _ m material Hnd Hm' Hin Hid) in Hmatch.
    congruence.
Qed.

(** X22.  With an empty search term (the lower case of the empty string
    being empty) the filter keeps the whole list, so every material of the
    list is displayed. *)
Theorem empty_search_shows_all (s : State) (material : MaterialDto) :
  toLowerCase "" = "" -> searchTerm s = "" ->
  searchedList (filteredMaterials toLowerCase s) = materialList s /\
  (In material (materialList s) ->
   displayed (filteredMaterials toLowerCase s) material = true).
Proof.
  intros Hlow Hterm.
  assert (Hall : searchedList (filteredMaterials toLowerCase s) = materialList s).
  { cbn. rewrite Hterm. induction (materialList s) as [|m l IH]; [done |].
    cbn. unfold matches at 1. rewrite Hlow, includes_empty. by rewrite IH. }
  split; [exact Hall |]. intros Hin.
  apply displayed_spec. exists material. by rewrite Hall.
Qed.

(** X23.  A delete the backend accepts sets the material list to the list
    its handler saw (the one of the render that created it) without the
    materials of that id: a material is in the new list exactly when it was
    in the list seen and has another id.  The parent is told once, the
    alert and the search term are left alone, and after the filter effect
    no row with that id is displayed. *)
Theorem delete_removes_material
    (s : State) (seen : list MaterialDto) (materialID : Z) (material : MaterialDto) :
  let s' := filteredMaterials toLowerCase
              (onDeleteItem (Fulfilled tt) seen materialID s) in
  (In material (materialList s') <->
   In material seen /\ id material <> materialID) /\
  (id material = materialID -> displayed s' material = false) /\
  selections s' = selections s ++ [(materialID, [], "deleteMaterial")] /\
  (showAlert s', alertMessage s', searchTerm s')
    = (showAlert s, alertMessage s, searchTerm s) /\
  step toLowerCase s (OpDelete (Fulfilled tt) materialID)
  = filteredMaterials toLowerCase
      (onDeleteItem (Fulfilled tt) (materialList s) materialID s).
Proof.
  cbn. split; [| split; [| repeat split]].
  - by rewrite List.filter_In, negb_true_iff, Z.eqb_neq.
  - intros Hid. apply not_true_is_false. intros Hd.
    apply displayed_spec in Hd as (m & Hm & Hmid). cbn in Hm.
    apply List.filter_In in Hm as [Hm _]. apply List.filter_In in Hm as [_ Hm].
    apply negb_true_iff, Z.eqb_neq in Hm. congruence.
Qed.

(** X24.  A request that fails changes neither list nor the search term:
    it raises the alert, with a message that starts with the text of the
    handler that caught it, and the parent is not told of any deletion. *)
Theorem failure_keeps_lists (s : State) (op : Op) :
  failed op = true ->
  let s' := step toLowerCase s op in
  materialList s' = materialList s /\ searchedList s' = searchedList s /\
  searchTerm s' = searchTerm s /\ selections s' = selections s /\
  showAlert s' = true /\
  exists error : string,
    alertMessage s' = "Error fetching materials: " +:+ error \/
    alertMessage s' = "Problem with deleting material: " +:+ error.
Proof.
  destruct op as [[l|e]|t| | |[l|e] i|[[]|e] i]; cbn; try discriminate; intros _.
  all: repeat split; exists e; auto.
Qed.

Lemma step_settled (s : State) (op : Op) :
  searchedList s = List.filter (matches toLowerCase (searchTerm s)) (materialList s) ->
  let s' := step toLowerCase s op in
  searchedList s' = List.filter (matches toLowerCase (searchTerm s')) (materialList s').
Proof.
  intros Hs. unfold step.
  destruct (deps_changed s op) eqn:Hdeps; [reflexivity |].
  destruct op as [[l|e]|t| | |[l|e] i|[[]|e] i]; cbn in *; try discriminate; try exact Hs.
  apply negb_false_iff, String.eqb_eq in Hdeps. by subst t.
Qed.

(** X25.  From a state where the searched list is the filtered list (the
    first render is one), it is so after every sequence of events: what is
    displayed always reflects the current list and the current term. *)
Theorem searched_list_is_filtered (ops : list Op) (s : State) :
  searchedList s = List.filter (matches toLowerCase (searchTerm s)) (materialList s) ->
  let s' := run toLowerCase ops s in
  searchedList s' = List.filter (matches toLowerCase (searchTerm s')) (materialList s').
Proof.
  unfold run. revert s.
  induction ops as [|op ops IH]; intros s Hs; cbn; [exact Hs |].
  apply IH. by apply step_settled.
Qed.

(** X26.  The alert is never dismissed and the spinner never comes back:
    after any sequence of events the alert is shown exactly if it was
    before or some request failed, and the list is loading exactly if it
    was before and no fetch has settled, refetches after a creation
    included. *)
Theorem alert_and_spinner (ops : list Op) (s : State) :
  showAlert (run toLowerCase ops s) = showAlert s || existsb failed ops /\
  loading (run toLowerCase ops s) = loading s && negb (existsb fetches ops).
Proof.
  unfold run. revert s.
  induction ops as [|op ops IH]; intros s; cbn.
  - by rewrite orb_false_r, andb_true_r.
  - destruct (IH (step toLowerCase s op)) as [Ha Hl]. rewrite Ha, Hl.
    unfold step.
    destruct op as [[l|e]|t| | |[l|e] i|[[]|e] i]; cbn;
      try destruct (negb (String.eqb t (searchTerm s))); cbn;
      rewrite ?orb_true_r, ?andb_false_r; try done.
    all: by rewrite ?orb_true_l.
Qed.

End MaterialsFacts.

(** Two materials and a search in capitals, for the examples. *)
Lemma displayed_iff_matches_witness :
  let guide := Materials.mkMaterial 2 "Rocq Guide" in
  let s := Materials.mkState [Materials.mkMaterial 1 "Intro"; guide] [] "ROCQ"
             false false false "" [] in
  Materials.displayed (Materials.filteredMaterials Materials.lower s) guide = true /\
  Materials.displayed (Materials.filteredMaterials Materials.lower s)
    (Materials.mkMaterial 1 "Intro") = false.
Proof.
  split.
  - rewrite (displayed_iff_matches Materials.lower).
    + reflexivity.
    + repeat constructor; cbn; intuition discriminate.
    + cbn. auto.
  - rewrite (displayed_iff_matches Materials.lower).
    + reflexivity.
    + repeat constructor; cbn; intuition discriminate.
    + cbn. auto.
Defined.

Lemma empty_search_shows_all_witness :
  let intro := Materials.mkMaterial 1 "Intro" in
  let s := Materials.mkState [intro; Materials.mkMaterial 2 "Rocq Guide"] [] ""
             false false false "" [] in
  Materials.lower "" = "" /\
  Materials.searchedList (Materials.filteredMaterials Materials.lower s)
    = Materials.materialList s.
Proof.
  split; [reflexivity |].
  apply (empty_search_shows_all Materials.lower
           (Materials.mkState [Materials.mkMaterial 1 "Intro";
                               Materials.mkMaterial 2 "Rocq Guide"] [] ""
              false false false "" [])
           (Materials.mkMaterial 1 "Intro")); reflexivity.
Defined.

Lemma failure_keeps_lists_witness :
  let s := Materials.step Materials.lower Materials.initial
             (Materials.OpFetch (Materials.Fulfilled [Materials.mkMaterial 1 "Intro"])) in
  let s' := Materials.step Materials.lower s
              (Materials.OpDelete (Materials.Failed "Error: 500") 1) in
  Materials.materialList s' = [Materials.mkMaterial 1 "Intro"] /\
  Materials.showAlert s' = true.
Proof.
  pose proof (failure_keeps_lists Materials.lower
                (Materials.step Materials.lower Materials.initial
                   (Materials.OpFetch (Materials.Fulfilled [Materials.mkMaterial 1 "Intro"])))
                (Materials.OpDelete (Materials.Failed "Error: 500") 1) eq_refl)
    as (Hl & _ & _ & _ & Ha & _).
  exact (conj Hl Ha).
Defined.

Lemma searched_list_is_filtered_witness :
  let s' := Materials.run Materials.lower
              [Materials.OpFetch (Materials.Fulfilled
                 [Materials.mkMaterial 1 "Intro"; Materials.mkMaterial 2 "Rocq Guide"]);
               Materials.OpSearch "gui"; Materials.OpDelete (Materials.Fulfilled tt) 1]
              Materials.initial in
  Materials.searchedList s' = [Materials.mkMaterial 2 "Rocq Guide"] /\
  Materials.searchedList s'
  = List.filter (Materials.matches Materials.lower (Materials.searchTerm s'))
                (Materials.materialList s').
Proof.
  split; [reflexivity |].
  apply (searched_list_is_filtered Materials.lower _ Materials.initial). reflexivity.
Defined.
